(** * command_line switch: a shallow embedding of
      [homeassistant/components/command_line/switch.py]

    The entity [CommandSwitch] is a record.  Its synchronous methods are
    computations in a state monad over the entity, the chronological list of
    effects it performed (log records, calls to the process helpers, calls to
    the host) and the outside world that answers the shell commands.  Its
    [async] methods are coroutines: trees of synchronous actions and [await]
    points, run either to completion or interleaved by an event loop. *)

From Stdlib Require Import String Ascii List ZArith Bool Lia.
Import ListNotations.

Local Open Scope string_scope.
Local Open Scope Z_scope.

(** ** Python values and string operations used by the switch *)

Module Py.

(** What [_query_state] may return: [str | int | None]; the [int] is in
    fact the [bool] computed by [_query_state_code]. *)
Inductive value : Type :=
| PyNone
| PyStr (s : string)
| PyBool (b : bool).

(** [str(v)] *)
Definition str (v : value) : string :=
  match v with
  | PyNone => "None"
  | PyStr s => s
  | PyBool true => "True"
  | PyBool false => "False"
  end.

(** Truth value of a [str]: only the empty string is falsy. *)
Definition truthy (s : string) : bool :=
  match s with
  | EmptyString => false
  | String _ _ => true
  end.

(** Truth value of a [str | None]. *)
Definition truthy_opt (o : option string) : bool :=
  match o with
  | None => false
  | Some s => truthy s
  end.

(** [a or b] for [a : str | None] and [b : str]. *)
Definition or_else (a : option string) (b : string) : string :=
  match a with
  | Some s => if truthy s then s else b
  | None => b
  end.

Definition is_upper (c : ascii) : bool :=
  let n := nat_of_ascii c in ((65 <=? n) && (n <=? 90))%nat.

Definition lower_ascii (c : ascii) : ascii :=
  if is_upper c then ascii_of_nat (nat_of_ascii c + 32) else c.

(** [s.lower()]; letters outside ASCII are left as they are, which does
    not change whether the result is the literal ["true"]. *)
Fixpoint lower (s : string) : string :=
  match s with
  | EmptyString => EmptyString
  | String c r => String (lower_ascii c) (lower r)
  end.

(** ASCII white space, as removed by [bytes.strip()]. *)
Definition is_space (c : ascii) : bool :=
  let n := nat_of_ascii c in (((9 <=? n) && (n <=? 13)) || (n =? 32))%nat.

Fixpoint lstrip (s : string) : string :=
  match s with
  | EmptyString => EmptyString
  | String c r => if is_space c then lstrip r else s
  end.

Fixpoint rstrip (s : string) : string :=
  match s with
  | EmptyString => EmptyString
  | String c r =>
      match rstrip r with
      | EmptyString => if is_space c then EmptyString else String c EmptyString
      | r' => String c r'
      end
  end.

Definition strip (s : string) : string := lstrip (rstrip s).

End Py.

(** ** Collaborators *)

(** [homeassistant.helpers.template.Template], seen through the one method
    the switch calls: [async_render_with_possible_json_value(payload, None)]
    gives the rendered text, or the error value [None].  This is what the
    call returns when it returns; that it may raise instead is the matter
    of [Faults] below. *)
Record Template : Type := {
  async_render_with_possible_json_value : string -> option string
}.

(** The [Template] under [CONF_NAME], seen through [ManualTriggerEntity],
    which renders it and is not part of this module: the [name] that the
    entity reports before anything was rendered ([None] unless the template
    is static), and the [name] that it reports once
    [_process_manual_data(payload)] has rendered the templates of the
    trigger configuration again. *)
Record NameTemplate : Type := {
  initial_name : option string;
  rendered_name : string -> option string
}.

Inductive Level : Type := INFO | WARNING | ERROR.

(** The arguments of a log record: a [str], [None], or a [timedelta]. *)
Inductive Arg : Type :=
| AStr (s : string)
| ANone
| ATimedelta (seconds : Z).

(** Everything the entity does that is visible from outside, in the order in
    which it happens. *)
Inductive Effect : Type :=
| Log (lvl : Level) (fmt : string) (args : list Arg)
| Ran_call_shell_with_timeout (command : string) (timeout : Z) (log_return_code : bool)
| Ran_check_output_or_log (command : string) (timeout : Z)
| Rendered (payload : string)
| ProcessManualData (payload : string)
| ScheduleUpdateHaState
| UpdateHaState (force_refresh : bool).

(** The outside world.  [utils.call_shell_with_timeout] and
    [utils.check_output_or_log] are not part of this module: what they return
    is a parameter of the world.  The [n]-th helper call for [command] with
    [timeout] returns [exit_code n command timeout], respectively
    [stdout n command timeout] ([None]: the command failed or timed out), so
    the same command may answer differently from one call to the next.  A
    command that fails or times out answers with an exit code other than 0.
    These are the values that the helpers return when they return; that a
    call may raise instead is the matter of [Faults] below. *)
Record World : Type := {
  clock : nat;
  exit_code : nat -> string -> Z -> Z;
  stdout : nat -> string -> Z -> option string
}.

Definition tick (w : World) : World :=
  {| clock := S (clock w); exit_code := exit_code w; stdout := stdout w |}.

(** ** The entity *)

(** The part of the [config] mapping that [ManualTriggerEntity] keeps. *)
Record ConfigType : Type := {
  CONF_NAME : NameTemplate;
  CONF_UNIQUE_ID : option string;
  CONF_ICON : option string
}.

Record CommandSwitch : Type := {
  _config : ConfigType;               (* kept by [ManualTriggerEntity] *)
  name : option string;               (* the property [name]: str | None *)
  entity_id : string;
  _attr_is_on : option bool;          (* True / False / None *)
  _command_on : string;
  _command_off : string;
  _command_state : option string;
  _value_template : option Template;
  _timeout : Z;
  _scan_interval : Z;                 (* timedelta, in seconds *)
  _process_updates : option bool      (* asyncio.Lock | None; [Some b]: b = locked() *)
}.

Definition ENTITY_ID_FORMAT (object_id : string) : string :=
  "switch." ++ object_id.

Definition __init__ (config : ConfigType) (object_id command_on command_off : string)
    (command_state : option string) (value_template : option Template)
    (timeout scan_interval : Z) : CommandSwitch :=
  {| _config := config;
     name := initial_name (CONF_NAME config);
     entity_id := ENTITY_ID_FORMAT object_id;
     _attr_is_on := Some false;
     _command_on := command_on;
     _command_off := command_off;
     _command_state := command_state;
     _value_template := value_template;
     _timeout := timeout;
     _scan_interval := scan_interval;
     _process_updates := None |}.

Definition with_is_on (v : option bool) (s : CommandSwitch) : CommandSwitch :=
  {| _config := _config s;
     name := name s;
     entity_id := entity_id s;
     _attr_is_on := v;
     _command_on := _command_on s;
     _command_off := _command_off s;
     _command_state := _command_state s;
     _value_template := _value_template s;
     _timeout := _timeout s;
     _scan_interval := _scan_interval s;
     _process_updates := _process_updates s |}.

Definition with_process_updates (l : option bool) (s : CommandSwitch) : CommandSwitch :=
  {| _config := _config s;
     name := name s;
     entity_id := entity_id s;
     _attr_is_on := _attr_is_on s;
     _command_on := _command_on s;
     _command_off := _command_off s;
     _command_state := _command_state s;
     _value_template := _value_template s;
     _timeout := _timeout s;
     _scan_interval := _scan_interval s;
     _process_updates := l |}.

Definition with_name (n : option string) (s : CommandSwitch) : CommandSwitch :=
  {| _config := _config s;
     name := n;
     entity_id := entity_id s;
     _attr_is_on := _attr_is_on s;
     _command_on := _command_on s;
     _command_off := _command_off s;
     _command_state := _command_state s;
     _value_template := _value_template s;
     _timeout := _timeout s;
     _scan_interval := _scan_interval s;
     _process_updates := _process_updates s |}.

(** The entity once the host has rendered the name template with
    [payload]. *)
Definition rerendered (payload : string) (s : CommandSwitch) : CommandSwitch :=
  with_name (rendered_name (CONF_NAME (_config s)) payload) s.

(** [assumed_state]: true if we do optimistic updates. *)
Definition assumed_state (s : CommandSwitch) : bool :=
  match _command_state s with
  | None => true
  | Some _ => false
  end.

(** [lock.locked()] for a lock that exists. *)
Definition locked (s : CommandSwitch) : bool :=
  match _process_updates s with
  | Some b => b
  | None => false
  end.

(** ** Synchronous code: a state monad *)

Record Sys : Type := {
  self : CommandSwitch;
  trace : list Effect;
  world : World
}.

Definition M (A : Type) : Type := Sys -> A * Sys.

Definition ret {A : Type} (a : A) : M A := fun y => (a, y).

Definition bind {A B : Type} (m : M A) (f : A -> M B) : M B :=
  fun y => let (a, y') := m y in f a y'.

Declare Scope sync_scope.
Delimit Scope sync_scope with sync.
Notation "x <- m ;; k" := (bind m (fun x => k))
  (at level 61, m at next level, right associativity) : sync_scope.
Notation "m ;; k" := (bind m (fun _ => k))
  (at level 61, right associativity) : sync_scope.

Definition get_self : M CommandSwitch := fun y => (self y, y).

Definition modify_self (f : CommandSwitch -> CommandSwitch) : M unit :=
  fun y => (tt, {| self := f (self y); trace := trace y; world := world y |}).

Definition emit (e : Effect) : M unit :=
  fun y => (tt, {| self := self y; trace := (trace y ++ [e])%list; world := world y |}).

Definition when (b : bool) (m : M unit) : M unit :=
  if b then m else ret tt.

(** The two process helpers, answered by the world. *)
Definition call_shell_with_timeout (command : string) (timeout : Z)
    (log_return_code : bool) : M Z :=
  fun y =>
    (exit_code (world y) (clock (world y)) command timeout,
     {| self := self y;
        trace := (trace y ++ [Ran_call_shell_with_timeout command timeout log_return_code])%list;
        world := tick (world y) |}).

Definition check_output_or_log (command : string) (timeout : Z) : M (option string) :=
  fun y =>
    (stdout (world y) (clock (world y)) command timeout,
     {| self := self y;
        trace := (trace y ++ [Ran_check_output_or_log command timeout])%list;
        world := tick (world y) |}).

Definition of_output (o : option string) : Py.value :=
  match o with
  | Some s => Py.PyStr s
  | None => Py.PyNone
  end.

Section SyncMethods.
Local Open Scope sync_scope.

(** [_query_state_value]: execute state command for return value. *)
Definition _query_state_value (command : string) : M (option string) :=
  emit (Log INFO "Running state value command: %s" [AStr command]) ;;
  s <- get_self ;;
  check_output_or_log command (_timeout s).

(** [_query_state_code]: execute state command for return code. *)
Definition _query_state_code (command : string) : M bool :=
  emit (Log INFO "Running state code command: %s" [AStr command]) ;;
  s <- get_self ;;
  rc <- call_shell_with_timeout command (_timeout s) false ;;
  ret (rc =? 0).

(** [_query_state]: query for state. *)
Definition _query_state : M Py.value :=
  s <- get_self ;;
  match _command_state s with
  | Some command =>
      if Py.truthy command then
        match _value_template s with
        | Some _ => o <- _query_state_value command ;; ret (of_output o)
        | None => b <- _query_state_code command ;; ret (Py.PyBool b)
        end
      else ret Py.PyNone
  | None => ret Py.PyNone
  end.

(** [ManualTriggerEntity._process_manual_data], which is not part of this
    module: the payload is handed to the host, which renders the templates
    of the trigger configuration again; the entity then reports the name
    that the name template renders. *)
Definition _process_manual_data (payload : string) : M unit :=
  emit (ProcessManualData payload) ;;
  modify_self (rerendered payload).

(** Lines 232 to 240 of [_async_update]: what is done with the result of
    the state query, between the two [await]s. *)
Definition interpret_payload (payload : string) : M unit :=
  s <- get_self ;;
  value <- match _value_template s with
           | Some t => emit (Rendered payload) ;;
                       ret (async_render_with_possible_json_value t payload)
           | None => ret None
           end ;;
  modify_self (with_is_on None) ;;
  when (Py.truthy payload || Py.truthy_opt value)
    (modify_self
       (with_is_on (Some (Py.lower (Py.or_else value payload) =? "true")%string))) ;;
  _process_manual_data payload.

End SyncMethods.

(** ** Coroutines *)

(** The places where the coroutines of this module give control back to the
    event loop, named by their line in [switch.py]: the executor job of
    [_switch], the executor job of [_async_update], and the host call that
    ends [_async_update]. *)
Inductive Point : Type := L176 | L231 | L241.

(** A coroutine: it returns, or performs a synchronous action and goes on,
    or awaits the result of a job at an [await] point. *)
Inductive Coro (A : Type) : Type :=
| Ret (a : A)
| Act (X : Type) (m : M X) (k : X -> Coro A)
| Await (X : Type) (pt : Point) (job : M X) (k : X -> Coro A).

Arguments Ret {A} a.
Arguments Act {A X} m k.
Arguments Await {A X} pt job k.

Fixpoint cbind {A B : Type} (c : Coro A) (f : A -> Coro B) : Coro B :=
  match c with
  | Ret a => f a
  | Act m k => Act m (fun x => cbind (k x) f)
  | Await pt job k => Await pt job (fun x => cbind (k x) f)
  end.

Definition act {X : Type} (m : M X) : Coro X := Act m Ret.
Definition await {X : Type} (pt : Point) (job : M X) : Coro X := Await pt job Ret.

Declare Scope coro_scope.
Delimit Scope coro_scope with coro.
Notation "x <- c ;; k" := (cbind c (fun x => k))
  (at level 61, c at next level, right associativity) : coro_scope.
Notation "c ;; k" := (cbind c (fun _ => k))
  (at level 61, right associativity) : coro_scope.

(** Running a coroutine alone, to completion: every job is done at once. *)
Fixpoint run {A : Type} (c : Coro A) (y : Sys) : A * Sys :=
  match c with
  | Ret a => (a, y)
  | Act m k => let (x, y') := m y in run (k x) y'
  | Await _ job k => let (x, y') := job y in run (k x) y'
  end.

Definition exec {A : Type} (c : Coro A) (y : Sys) : Sys := snd (run c y).

(** Running a coroutine up to its next [await] (or its end): this is what
    the event loop does with a task without interruption. *)
Fixpoint advance {A : Type} (c : Coro A) (y : Sys) : Coro A * Sys :=
  match c with
  | Ret a => (Ret a, y)
  | Act m k => let (x, y') := m y in advance (k x) y'
  | Await pt job k => (Await pt job k, y)
  end.

(** ** The coroutines of [CommandSwitch] *)

Section AsyncMethods.
Local Open Scope coro_scope.

(** [_switch]: execute the actual commands. *)
Definition _switch (command : string) : Coro bool :=
  act (emit (Log INFO "Running command: %s" [AStr command])) ;;
  s <- act get_self ;;
  rc <- await L176 (call_shell_with_timeout command (_timeout s) true) ;;
  let success := rc =? 0 in
  act (when (negb success) (emit (Log ERROR "Command failed: %s" [AStr command]))) ;;
  Ret success.

(** [_async_update]: update device state. *)
Definition _async_update : Coro unit :=
  s <- act get_self ;;
  if Py.truthy_opt (_command_state s) then
    r <- await L231 _query_state ;;
    act (interpret_payload (Py.str r)) ;;
    await L241 (emit (UpdateHaState true))
  else Ret tt.

(** The record logged at lines 218 to 222: its arguments are [self.name],
    as it is then, and [self._scan_interval]. *)
Definition poll_warning (s : CommandSwitch) : Effect :=
  Log WARNING
    "Updating Command Line Switch %s took longer than the scheduled update interval %s"
    [match name s with Some n => AStr n | None => ANone end;
     ATimedelta (_scan_interval s)].

(** [_update_entity_state]: update the state of the entity. *)
Definition _update_entity_state (now : option Z) : Coro unit :=
  s <- act get_self ;;
  act (when (match _process_updates s with None => true | Some _ => false end)
         (modify_self (with_process_updates (Some false)))) ;;
  s <- act get_self ;;
  if locked s then
    act (emit (poll_warning s))
  else
    act (modify_self (with_process_updates (Some true))) ;;
    _async_update ;;
    act (modify_self (with_process_updates (Some false))).

(** [async_turn_on]: turn the device on. *)
Definition async_turn_on : Coro unit :=
  s <- act get_self ;;
  ok <- _switch (_command_on s) ;;
  s <- act get_self ;;
  act (when (ok && negb (Py.truthy_opt (_command_state s)))
         (bind (modify_self (with_is_on (Some true)))
               (fun _ => emit ScheduleUpdateHaState))) ;;
  _update_entity_state None.

(** [async_turn_off]: turn the device off. *)
Definition async_turn_off : Coro unit :=
  s <- act get_self ;;
  ok <- _switch (_command_off s) ;;
  s <- act get_self ;;
  act (when (ok && negb (Py.truthy_opt (_command_state s)))
         (bind (modify_self (with_is_on (Some false)))
               (fun _ => emit ScheduleUpdateHaState))) ;;
  _update_entity_state None.

End AsyncMethods.

(** Either action: [async_turn_on] or [async_turn_off], and its command. *)
Definition turn (on : bool) : Coro unit :=
  if on then async_turn_on else async_turn_off.

Definition command_of (on : bool) (s : CommandSwitch) : string :=
  if on then _command_on s else _command_off s.

(** [SwitchEntity.is_on] *)
Definition is_on (s : CommandSwitch) : option bool := _attr_is_on s.

(** The value that lines 237 to 239 leave in [_attr_is_on], as a function of
    [payload] and [value]. *)
Definition interpret (payload : string) (value : option string) : option bool :=
  if Py.truthy payload || Py.truthy_opt value
  then Some (Py.lower (Py.or_else value payload) =? "true")%string
  else None.

(** [value] as computed at lines 232 to 236. *)
Definition rendered_value (s : CommandSwitch) (payload : string) : option string :=
  match _value_template s with
  | Some t => async_render_with_possible_json_value t payload
  | None => None
  end.

(** What the state command prints at its next run, were it captured. *)
Definition state_command_stdout (y : Sys) : option string :=
  match _command_state (self y) with
  | Some c => stdout (world y) (clock (world y)) c (_timeout (self y))
  | None => None
  end.

(** The exit code of the state command at its next run. *)
Definition state_command_exit_code (y : Sys) : Z :=
  match _command_state (self y) with
  | Some c => exit_code (world y) (clock (world y)) c (_timeout (self y))
  | None => 0
  end.

(** The same system in a world whose commands print something else. *)
Definition with_stdout (f : nat -> string -> Z -> option string) (y : Sys) : Sys :=
  {| self := self y;
     trace := trace y;
     world := {| clock := clock (world y);
                 exit_code := exit_code (world y);
                 stdout := f |} |}.

(** ** Exceptions *)

(** Nothing in this module raises, and nothing in it catches ([async with]
    releases the lock and lets the exception through): an exception can
    only come out of a call to a collaborator, that is a process helper,
    the rendering of the template, or the host, and it then leaves every
    coroutine on its way, up to the caller.  [Faults] says which calls
    raise: [F n e] holds when the call recorded as the [n]-th effect of the
    trace, being [e], raises instead of returning.  Writing a log record
    is not such a call. *)
Definition Faults : Type := nat -> Effect -> bool.

Definition is_call (e : Effect) : bool :=
  match e with
  | Log _ _ _ => false
  | _ => true
  end.

(** One of the calls [es], recorded from position [n] on, raises. *)
Fixpoint raised (F : Faults) (n : nat) (es : list Effect) : bool :=
  match es with
  | [] => false
  | e :: r => if is_call e && F n e then true else raised F (S n) r
  end.

(** The effects recorded between [y] and [y']. *)
Definition since (y y' : Sys) : list Effect :=
  skipn (length (trace y)) (trace y').

(** The coroutine, run alone from [y], ends by an exception: one of its
    actions or jobs makes a call that raises.  Up to that call the run is
    the one of [run]; what is left of the system after the exception is
    not modelled. *)
Fixpoint raises {A : Type} (F : Faults) (c : Coro A) (y : Sys) : bool :=
  match c with
  | Ret _ => false
  | Act m k =>
      let (x, y') := m y in
      if raised F (length (trace y)) (since y y') then true else raises F (k x) y'
  | Await _ job k =>
      let (x, y') := job y in
      if raised F (length (trace y)) (since y y') then true else raises F (k x) y'
  end.

(** No call raises. *)
Definition no_fault : Faults := fun _ _ => false.

(** The rendering of the value template raises (a division by zero in the
    template, say); every other call returns. *)
Definition rendering_raises : Faults :=
  fun _ e => match e with Rendered _ => true | _ => false end.

(** ** The event loop *)

(** [async_added_to_hass]: the interval at which [_update_entity_state] is
    scheduled, if it is scheduled at all. *)
Definition async_added_to_hass (s : CommandSwitch) : option Z :=
  if Py.truthy_opt (_command_state s) then Some (_scan_interval s) else None.

(** The loop owns the system state and the tasks that wait at an [await]. *)
Record Loop : Type := {
  sys : Sys;
  tasks : list (Coro unit)
}.

Definition idle (y : Sys) : Loop := {| sys := y; tasks := [] |}.

(** A task that has not returned waits for its turn. *)
Definition park (c : Coro unit) (ts : list (Coro unit)) : list (Coro unit) :=
  match c with
  | Ret _ => ts
  | _ => (ts ++ [c])%list
  end.

Fixpoint remove_nth {A : Type} (i : nat) (l : list A) : list A :=
  match l, i with
  | [], _ => []
  | _ :: r, O => r
  | a :: r, S j => a :: remove_nth j r
  end.

(** A new task runs at once, up to its first [await]. *)
Definition start (c : Coro unit) (l : Loop) : Loop :=
  let (c', y') := advance c (sys l) in
  {| sys := y'; tasks := park c' (tasks l) |}.

(** The awaited job of a task is done: the task goes on with its result.
    The effects of the job are recorded when it is done, and the task then
    runs without interruption up to its next [await]. *)
Definition resume (i : nat) (l : Loop) : Loop :=
  match nth_error (tasks l) i with
  | Some (Await _ job k) =>
      let (x, y1) := job (sys l) in
      let (c', y2) := advance (k x) y1 in
      {| sys := y2; tasks := park c' (remove_nth i (tasks l)) |}
  | _ => l
  end.

Inductive Event : Type :=
| Tick (now : Z)          (* the scheduled interval has elapsed *)
| CallTurnOn              (* service call switch.turn_on *)
| CallTurnOff             (* service call switch.turn_off *)
| Done (i : nat).         (* the job awaited by the i-th waiting task is done *)

Definition step (e : Event) (l : Loop) : Loop :=
  match e with
  | Tick now =>
      match async_added_to_hass (self (sys l)) with
      | Some _ => start (_update_entity_state (Some now)) l
      | None => l
      end
  | CallTurnOn => start async_turn_on l
  | CallTurnOff => start async_turn_off l
  | Done i => resume i l
  end.

Definition run_events (es : list Event) (l : Loop) : Loop :=
  fold_left (fun l e => step e l) es l.

(** A task waits inside the body of [_async_update]. *)
Definition inside_update (c : Coro unit) : bool :=
  match c with
  | Await L231 _ _ | Await L241 _ _ => true
  | _ => false
  end.

(** A task waits in [_switch]: when it goes on, it calls
    [_update_entity_state]. *)
Definition inside_switch (c : Coro unit) : bool :=
  match c with
  | Await L176 _ _ => true
  | _ => false
  end.

Definition updates_in_flight (l : Loop) : nat :=
  length (filter inside_update (tasks l)).

Definition is_warning (e : Effect) : bool :=
  match e with
  | Log WARNING _ _ => true
  | _ => false
  end.

Definition warnings (y : Sys) : nat := length (filter is_warning (trace y)).

(** The event makes a task call [_update_entity_state]: a scheduled tick,
    or the end of the command of a turn_on / turn_off. *)
Definition poll_attempt (e : Event) (l : Loop) : bool :=
  match e with
  | Tick _ =>
      match async_added_to_hass (self (sys l)) with
      | Some _ => true
      | None => false
      end
  | Done i =>
      match nth_error (tasks l) i with
      | Some c => inside_switch c
      | None => false
      end
  | _ => false
  end.

(** The poll attempt arrives while an update has not completed. *)
Definition overrun (e : Event) (l : Loop) : bool :=
  poll_attempt e l && (0 <? updates_in_flight l)%nat.

Fixpoint overruns (es : list Event) (l : Loop) : nat :=
  match es with
  | [] => O
  | e :: r => ((if overrun e l then 1 else 0) + overruns r (step e l))%nat
  end.

(** The tasks left waiting once the task of a poll attempt has ended. *)
Definition others (e : Event) (l : Loop) : list (Coro unit) :=
  match e with
  | Done i => remove_nth i (tasks l)
  | _ => tasks l
  end.

(** ** What the waiting tasks will do *)

(** A job that leaves the entity alone and logs no warning. *)
Definition quiet_job {X : Type} (job : M X) : Prop :=
  forall y, self (snd (job y)) = self y /\
            exists pre, trace (snd (job y)) = (trace y ++ pre)%list /\
                        filter is_warning pre = [].

(** A task at line 241: when it goes on, it releases the lock and ends. *)
Definition CommitTask (c : Coro unit) : Prop :=
  exists (X : Type) (job : M X) (k : X -> Coro unit),
    c = Await L241 job k /\ quiet_job job /\
    forall x y,
      advance (k x) y =
      (Ret tt, {| self := with_process_updates (Some false) (self y);
                  trace := trace y;
                  world := world y |}).

(** A task at line 231: when it goes on, it sets the state, has the name
    rendered and waits at line 241, still holding the lock. *)
Definition QueryTask (c : Coro unit) : Prop :=
  exists (X : Type) (job : M X) (k : X -> Coro unit),
    c = Await L231 job k /\ quiet_job job /\
    forall x y, exists c' v payload pre,
      advance (k x) y =
      (c', {| self := rerendered payload (with_is_on v (self y));
              trace := (trace y ++ pre)%list;
              world := world y |}) /\
      filter is_warning pre = [] /\ CommitTask c'.

(** The outcome of a call of [_update_entity_state] in system [y]: with the
    lock held, one warning and nothing else; otherwise the lock is taken
    and the task waits at line 231, or, without a state command, the lock
    is left free. *)
Definition polled (y : Sys) (c' : Coro unit) (y' : Sys) : Prop :=
  if locked (self y) then
    c' = Ret tt /\
    y' = {| self := self y;
            trace := (trace y ++ [poll_warning (self y)])%list;
            world := world y |}
  else if Py.truthy_opt (_command_state (self y)) then
    QueryTask c' /\
    y' = {| self := with_process_updates (Some true) (self y);
            trace := trace y;
            world := world y |}
  else
    c' = Ret tt /\
    y' = {| self := with_process_updates (Some false) (self y);
            trace := trace y;
            world := world y |}.

(** A task at line 176: when it goes on, it logs no warning, sets the
    state only if there is no state command, and calls
    [_update_entity_state]. *)
Definition SwitchTask (c : Coro unit) : Prop :=
  exists (X : Type) (job : M X) (k : X -> Coro unit),
    c = Await L176 job k /\ quiet_job job /\
    forall x y, exists c' y' s1 pre,
      advance (k x) y = (c', y') /\
      (s1 = self y \/
       (Py.truthy_opt (_command_state (self y)) = false /\
        exists v, s1 = with_is_on v (self y))) /\
      filter is_warning pre = [] /\
      polled {| self := s1; trace := (trace y ++ pre)%list; world := world y |} c' y'.

Definition task_ok (c : Coro unit) : Prop :=
  SwitchTask c \/ QueryTask c \/ CommitTask c.

(** The invariant of the loop: the lock is held exactly when one task waits
    inside [_async_update], and then there is a state command. *)
Definition loop_ok (l : Loop) : Prop :=
  Forall task_ok (tasks l) /\
  updates_in_flight l = (if locked (self (sys l)) then 1 else 0)%nat /\
  (locked (self (sys l)) = true ->
   Py.truthy_opt (_command_state (self (sys l))) = true).

(** ** Configurations used in the examples *)

(** A static name template: the name is its text from the start. *)
Definition static_name (text : string) : NameTemplate :=
  {| initial_name := Some text; rendered_name := fun _ => Some text |}.

(** The name template [Light {{ 1 + 1 }}]: no name until it is rendered. *)
Definition light_name : NameTemplate :=
  {| initial_name := None; rendered_name := fun _ => Some "Light 2" |}.

Definition demo_config : ConfigType :=
  {| CONF_NAME := light_name; CONF_UNIQUE_ID := None; CONF_ICON := None |}.

(** A world in which every command exits with [rc] and prints [out]. *)
Definition demo_world (rc : Z) (out : option string) : World :=
  {| clock := O; exit_code := fun _ _ _ => rc; stdout := fun _ _ _ => out |}.

Definition demo_switch (command_state : option string)
    (value_template : option Template) : CommandSwitch :=
  __init__ demo_config "test" "echo 1 > /tmp/s" "echo 0 > /tmp/s"
    command_state value_template 15 30.

Definition demo_sys (command_state : option string)
    (value_template : option Template) (rc : Z) (out : option string) : Sys :=
  {| self := demo_switch command_state value_template;
     trace := [];
     world := demo_world rc out |}.

(** The template [{{ value_json.state }}] on a payload that is not JSON:
    rendering fails and gives the error value. *)
Definition failing_template : Template :=
  {| async_render_with_possible_json_value := fun _ => None |}.

(** A template that renders the literal text [true]. *)
Definition true_template : Template :=
  {| async_render_with_possible_json_value := fun _ => Some "true" |}.

(** ** Statements that the code does not satisfy as they stand *)

(** The payload of the next state query: [str] of what [_query_state]
    returns. *)
Definition state_payload (y : Sys) : string := Py.str (fst (_query_state y)).

(** "When the chosen signal is the raw command output, the state is On iff
    the trimmed, lowercased output is "true", Off for any other non-empty
    output, and Unknown iff the output is absent or empty." *)
Definition raw_output_decides (y : Sys) : Prop :=
  Py.truthy_opt (rendered_value (self y) (state_payload y)) = false ->
  let out := state_command_stdout y in
  let st := is_on (self (exec _async_update y)) in
  (st = Some true <-> exists s, out = Some s /\ Py.lower (Py.strip s) = "true") /\
  (st = Some false <->
     exists s, out = Some s /\ s <> "" /\ Py.lower (Py.strip s) <> "true") /\
  (st = None <-> out = None \/ out = Some "").

(** "When the state command fails (non-zero exit, timeout, or no captured
    output), the resulting state is Unknown." *)
Definition failed_query_is_unknown (y : Sys) : Prop :=
  state_command_exit_code y <> 0 \/
  state_command_stdout y = None \/ state_command_stdout y = Some "" ->
  is_on (self (exec _async_update y)) = None.

(** "When the state command fails, the refresh completes without raising
    an error to the caller." *)
Definition failed_query_returns (F : Faults) (y : Sys) : Prop :=
  state_command_exit_code y <> 0 \/
  state_command_stdout y = None \/ state_command_stdout y = Some "" ->
  raises F _async_update y = false.

(** "When the command of turn_on (turn_off) fails, no exception is surfaced
    to the caller: the call completes normally."  The failed command is one
    that the process helper has run, and reported. *)
Definition failed_command_returns (F : Faults) (on : bool) (y : Sys) : Prop :=
  let s := self y in
  let command := command_of on s in
  exit_code (world y) (clock (world y)) command (_timeout s) <> 0 ->
  F (S (length (trace y))) (Ran_call_shell_with_timeout command (_timeout s) true) = false ->
  raises F (turn on) y = false.

(** "In assumed-state mode, turn_on followed by a refresh leaves the state
    On." *)
Definition assumed_on_after_turn_on (y : Sys) : Prop :=
  _command_state (self y) = None ->
  is_on (self (exec (_update_entity_state None) (exec async_turn_on y))) = Some true.

(** ** The entity over time *)

(** [s'] is [s] but for the state, the lock and the name, which is the one
    of [s] or a rendering of its name template. *)
Definition same_configuration (s s' : CommandSwitch) : Prop :=
  exists v l n,
    s' = with_name n (with_is_on v (with_process_updates l s)) /\
    (n = name s \/ exists payload, n = rendered_name (CONF_NAME (_config s)) payload).

(** The number of [await]s that a waiting task may still go through: three
    from line 176 (its own, and the two of a refresh), two from line 231,
    one from line 241. *)
Definition awaits_left (c : Coro unit) : nat :=
  match c with
  | Await L176 _ _ => 3
  | Await L231 _ _ => 2
  | Await L241 _ _ => 1
  | _ => 0
  end.

Definition pending (l : Loop) : nat :=
  fold_right (fun c n => (awaits_left c + n)%nat) O (tasks l).

(** ** Setting up the platform *)

(** [SCAN_INTERVAL], line 42. *)
Definition SCAN_INTERVAL : Z := 30.

(** A device configuration: the mapping that [SWITCH_SCHEMA] (or the
    discovery of the integration) produces, as a record with one optional
    entry per key, each of the type the schema gives it.  An icon is a
    [Template] object, kept here by its source text; as an object it is
    always true in a test, even when the text is empty. *)
Module Conf.

Record t : Type := {
  CONF_COMMAND_OFF : option string;
  CONF_COMMAND_ON : option string;
  CONF_COMMAND_STATE : option string;
  CONF_FRIENDLY_NAME : option string;
  CONF_ICON : option string;
  CONF_ICON_TEMPLATE : option string;
  CONF_NAME : option string;
  CONF_SCAN_INTERVAL : option Z;
  CONF_UNIQUE_ID : option string;
  CONF_VALUE_TEMPLATE : option Template;
  CONF_COMMAND_TIMEOUT : option Z
}.

(** The keys that are read by subscript: a missing one is a [KeyError]. *)
Inductive key : Type := COMMAND_ON | COMMAND_OFF | COMMAND_TIMEOUT | NAME.

Definition empty : t :=
  {| CONF_COMMAND_OFF := None; CONF_COMMAND_ON := None; CONF_COMMAND_STATE := None;
     CONF_FRIENDLY_NAME := None; CONF_ICON := None; CONF_ICON_TEMPLATE := None;
     CONF_NAME := None; CONF_SCAN_INTERVAL := None; CONF_UNIQUE_ID := None;
     CONF_VALUE_TEMPLATE := None; CONF_COMMAND_TIMEOUT := None |}.

Definition present {A : Type} (o : option A) : bool :=
  match o with
  | Some _ => true
  | None => false
  end.

(** Truth value of the mapping: false when it has no entry. *)
Definition truthy (d : t) : bool :=
  present (CONF_COMMAND_OFF d) || present (CONF_COMMAND_ON d) ||
  present (CONF_COMMAND_STATE d) || present (CONF_FRIENDLY_NAME d) ||
  present (CONF_ICON d) || present (CONF_ICON_TEMPLATE d) ||
  present (CONF_NAME d) || present (CONF_SCAN_INTERVAL d) ||
  present (CONF_UNIQUE_ID d) || present (CONF_VALUE_TEMPLATE d) ||
  present (CONF_COMMAND_TIMEOUT d).

(** The entries read by subscript when the switch is built are all there. *)
Definition complete (d : t) : bool :=
  present (CONF_COMMAND_ON d) && present (CONF_COMMAND_OFF d) &&
  present (CONF_COMMAND_TIMEOUT d).

(** [d[CONF_NAME] = name] *)
Definition set_name (name : string) (d : t) : t :=
  {| CONF_COMMAND_OFF := CONF_COMMAND_OFF d; CONF_COMMAND_ON := CONF_COMMAND_ON d;
     CONF_COMMAND_STATE := CONF_COMMAND_STATE d;
     CONF_FRIENDLY_NAME := CONF_FRIENDLY_NAME d; CONF_ICON := CONF_ICON d;
     CONF_ICON_TEMPLATE := CONF_ICON_TEMPLATE d; CONF_NAME := Some name;
     CONF_SCAN_INTERVAL := CONF_SCAN_INTERVAL d; CONF_UNIQUE_ID := CONF_UNIQUE_ID d;
     CONF_VALUE_TEMPLATE := CONF_VALUE_TEMPLATE d;
     CONF_COMMAND_TIMEOUT := CONF_COMMAND_TIMEOUT d |}.

(** [d[CONF_ICON] = icon] *)
Definition set_icon (icon : string) (d : t) : t :=
  {| CONF_COMMAND_OFF := CONF_COMMAND_OFF d; CONF_COMMAND_ON := CONF_COMMAND_ON d;
     CONF_COMMAND_STATE := CONF_COMMAND_STATE d;
     CONF_FRIENDLY_NAME := CONF_FRIENDLY_NAME d; CONF_ICON := Some icon;
     CONF_ICON_TEMPLATE := CONF_ICON_TEMPLATE d; CONF_NAME := CONF_NAME d;
     CONF_SCAN_INTERVAL := CONF_SCAN_INTERVAL d; CONF_UNIQUE_ID := CONF_UNIQUE_ID d;
     CONF_VALUE_TEMPLATE := CONF_VALUE_TEMPLATE d;
     CONF_COMMAND_TIMEOUT := CONF_COMMAND_TIMEOUT d |}.

End Conf.

(** The platform configuration: [config.get(CONF_SWITCHES, {})] is a mapping
    from object ids to device configurations, in the order of its entries. *)
Record PlatformConfig : Type := {
  CONF_SWITCHES : option (list (string * Conf.t))
}.

(** What the setup does to the host. *)
Inductive PlatformEffect : Type :=
| CreateIssue (domain issue_id breaks_in_ha_version : string) (is_fixable : bool)
    (severity : Level) (translation_key : string)
    (translation_placeholders : list (string * string))
| PlatformLog (lvl : Level) (msg : string)
| AddEntities (switches : list CommandSwitch).

(** How a call ends: it returns, or a [KeyError] leaves it. *)
Inductive Outcome : Type :=
| Returned
| KeyError (k : Conf.key).

(** The result of [async_setup_platform]: its effects, the device
    configurations as the call leaves them (it writes into them), and how it
    ended. *)
Record Setup : Type := {
  effects : list PlatformEffect;
  entities_after : list (string * Conf.t);
  outcome : Outcome
}.

(** Lines 88 to 96: the backward-compatibility writes into a device
    configuration. *)
Definition backward_compatibility (device_config : Conf.t) : Conf.t :=
  let device_config :=
    match Conf.CONF_FRIENDLY_NAME device_config with
    | Some name => if Py.truthy name then Conf.set_name name device_config
                   else device_config
    | None => device_config
    end in
  match Conf.CONF_ICON_TEMPLATE device_config with
  | Some icon => Conf.set_icon icon device_config
  | None => device_config
  end.

(** The test of line 70: there is a discovery, and it is not empty. *)
Definition discovered (discovery_info : option Conf.t) : bool :=
  match discovery_info with
  | Some info => Conf.truthy info
  | None => false
  end.

Section Platform.

(** [Template(text, hass)], line 100: the name template with that source
    text.  The class is not part of this module. *)
Variable name_template : string -> NameTemplate.

(** [homeassistant.util.slugify] and the two domain constants are not part
    of this module. *)
Variable slugify : string -> string.
Variables DOMAIN SWITCH_DOMAIN : string.

(** Lines 98 to 120: the switch built from one (rewritten) device
    configuration, or the key whose subscript fails. *)
Definition make_switch (object_id : string) (device_config : Conf.t)
    : CommandSwitch + Conf.key :=
  let trigger_entity_config :=
    {| CONF_UNIQUE_ID := Conf.CONF_UNIQUE_ID device_config;
       CONF_NAME := name_template
                      match Conf.CONF_NAME device_config with
                      | Some name => name
                      | None => object_id
                      end;
       CONF_ICON := Conf.CONF_ICON device_config |} in
  let value_template := Conf.CONF_VALUE_TEMPLATE device_config in
  match Conf.CONF_COMMAND_ON device_config with
  | None => inr Conf.COMMAND_ON
  | Some command_on =>
      match Conf.CONF_COMMAND_OFF device_config with
      | None => inr Conf.COMMAND_OFF
      | Some command_off =>
          match Conf.CONF_COMMAND_TIMEOUT device_config with
          | None => inr Conf.COMMAND_TIMEOUT
          | Some timeout =>
              inl (__init__ trigger_entity_config object_id command_on command_off
                     (Conf.CONF_COMMAND_STATE device_config) value_template timeout
                     (match Conf.CONF_SCAN_INTERVAL device_config with
                      | Some scan_interval => scan_interval
                      | None => SCAN_INTERVAL
                      end))
          end
      end
  end.

(** Lines 87 to 120: the loop over the entities, with the switches built so
    far. *)
Fixpoint make_switches (entities : list (string * Conf.t)) (switches : list CommandSwitch)
    : list (string * Conf.t) * (list CommandSwitch + Conf.key) :=
  match entities with
  | [] => ([], inl switches)
  | (object_id, device_config) :: rest =>
      let device_config := backward_compatibility device_config in
      match make_switch object_id device_config with
      | inr k => ((object_id, device_config) :: rest, inr k)
      | inl switch =>
          let (rest', r) := make_switches rest (switches ++ [switch])%list in
          ((object_id, device_config) :: rest', r)
      end
  end.

(** Lines 85 to 126, once [entities] is known. *)
Definition add_switches (before : list PlatformEffect)
    (entities : list (string * Conf.t)) : Setup :=
  let (entities', r) := make_switches entities [] in
  match r with
  | inr k => {| effects := before; entities_after := entities'; outcome := KeyError k |}
  | inl [] =>
      {| effects := (before ++ [PlatformLog ERROR "No switches added"])%list;
         entities_after := entities';
         outcome := Returned |}
  | inl switches =>
      {| effects := (before ++ [AddEntities switches])%list;
         entities_after := entities';
         outcome := Returned |}
  end.

(** Lines 73 to 83 and what follows: the switches of the YAML
    configuration, after the deprecation issue. *)
Definition yaml_switches (config : PlatformConfig) : Setup :=
  add_switches
    [CreateIssue DOMAIN "deprecated_yaml_switch" "2023.8.0" false WARNING
       "deprecated_platform_yaml" [("platform", SWITCH_DOMAIN)]]
    (match CONF_SWITCHES config with
     | Some entities => entities
     | None => []
     end).

(** [async_setup_platform]: find and return switches controlled by shell
    commands. *)
Definition async_setup_platform (config : PlatformConfig)
    (discovery_info : option Conf.t) : Setup :=
  match discovery_info with
  | Some info =>
      if Conf.truthy info then
        match Conf.CONF_NAME info with
        | Some name => add_switches [] [(slugify name, info)]
        | None => {| effects := []; entities_after := []; outcome := KeyError Conf.NAME |}
        end
      else yaml_switches config
  | None => yaml_switches config
  end.

End Platform.

(** A device configuration as the schema leaves it, with a friendly name. *)
Definition demo_device : Conf.t :=
  {| Conf.CONF_COMMAND_OFF := Some "echo 0 > /tmp/s";
     Conf.CONF_COMMAND_ON := Some "echo 1 > /tmp/s";
     Conf.CONF_COMMAND_STATE := Some "cat /tmp/s";
     Conf.CONF_FRIENDLY_NAME := Some "Kitchen light";
     Conf.CONF_ICON := None;
     Conf.CONF_ICON_TEMPLATE := None;
     Conf.CONF_NAME := None;
     Conf.CONF_SCAN_INTERVAL := None;
     Conf.CONF_UNIQUE_ID := None;
     Conf.CONF_VALUE_TEMPLATE := None;
     Conf.CONF_COMMAND_TIMEOUT := Some 15 |}.

(** * Properties *)

(** Unfolding the synchronous actions at a given system state. *)
Ltac sync :=
  cbv [bind ret get_self modify_self emit when _process_manual_data
       call_shell_with_timeout check_output_or_log];
  cbn [self trace world fst snd].

(** Unfolding a coroutine down to its next action. *)
Ltac coro := cbn [run advance cbind act await].

(** ** Lists *)

Lemma skipn_length_app {A : Type} (t es : list A) :
  skipn (length t) (t ++ es) = es.
Proof.
  rewrite skipn_app, skipn_all, Nat.sub_diag. reflexivity.
Qed.

(** Unfolding which of the recorded calls raise. *)
Ltac faults :=
  unfold since; cbn [trace];
  rewrite ?skipn_length_app, ?skipn_all;
  cbn [raised is_call andb].

(** The positions of the recorded calls. *)
Ltac positions :=
  rewrite ?length_app; cbn [length]; rewrite ?Nat.add_succ_r, ?Nat.add_0_r.

(** ** Strings *)

Lemma or_else_falsy (v : option string) (p : string) :
  Py.truthy_opt v = false -> Py.or_else v p = p.
Proof.
  destruct v as [s|]; simpl; intros H; [rewrite H|]; reflexivity.
Qed.

Lemma or_else_truthy (v p : string) :
  v <> "" -> Py.or_else (Some v) p = v.
Proof.
  intros H. simpl. destruct v as [|a r]; [contradiction H; reflexivity | reflexivity].
Qed.

(** ** The interpretation of a payload *)

Lemma interpret_payload_run (payload : string) (y : Sys) :
  interpret_payload payload y =
  (tt, {| self := rerendered payload
                    (with_is_on (interpret payload (rendered_value (self y) payload))
                       (self y));
          trace := (trace y
                    ++ match _value_template (self y) with
                       | Some _ => [Rendered payload]
                       | None => []
                       end
                    ++ [ProcessManualData payload])%list;
          world := world y |}).
Proof.
  unfold interpret_payload, interpret, rendered_value.
  cbv [bind get_self].
  destruct (_value_template (self y)) as [t|].
  - destruct (async_render_with_possible_json_value t payload) as [v|];
      sync; destruct (Py.truthy payload || Py.truthy_opt _); sync;
      rewrite <- app_assoc; reflexivity.
  - sync. destruct (Py.truthy payload || Py.truthy_opt None); sync; reflexivity.
Qed.

(** [_query_state] with a value template: the captured output. *)
Lemma query_state_value_run (y : Sys) (c : string) (t : Template) :
  _command_state (self y) = Some c -> Py.truthy c = true ->
  _value_template (self y) = Some t ->
  _query_state y =
  (of_output (stdout (world y) (clock (world y)) c (_timeout (self y))),
   {| self := self y;
      trace := (trace y ++ [Log INFO "Running state value command: %s" [AStr c];
                            Ran_check_output_or_log c (_timeout (self y))])%list;
      world := tick (world y) |}).
Proof.
  intros Hc Ht Hv. unfold _query_state, bind, get_self.
  rewrite Hc, Ht, Hv. cbn. rewrite <- app_assoc. reflexivity.
Qed.

(** [_query_state] without a value template: the exit code. *)
Lemma query_state_code_run (y : Sys) (c : string) :
  _command_state (self y) = Some c -> Py.truthy c = true ->
  _value_template (self y) = None ->
  _query_state y =
  (Py.PyBool (exit_code (world y) (clock (world y)) c (_timeout (self y)) =? 0),
   {| self := self y;
      trace := (trace y ++ [Log INFO "Running state code command: %s" [AStr c];
                            Ran_call_shell_with_timeout c (_timeout (self y)) false])%list;
      world := tick (world y) |}).
Proof.
  intros Hc Ht Hv. unfold _query_state, bind, get_self.
  rewrite Hc, Ht, Hv. cbn. rewrite <- app_assoc. reflexivity.
Qed.

(** [_async_update] when there is a state command. *)
Lemma async_update_run (y : Sys) (c : string) :
  _command_state (self y) = Some c -> Py.truthy c = true ->
  run _async_update y =
  let (r, y1) := _query_state y in
  let (_, y2) := interpret_payload (Py.str r) y1 in
  (tt, {| self := self y2; trace := (trace y2 ++ [UpdateHaState true])%list; world := world y2 |}).
Proof.
  intros Hc Ht. unfold _async_update.
  cbn [run cbind act await]. cbv [get_self]. rewrite Hc. cbn [Py.truthy_opt].
  rewrite Ht. cbn [run cbind act await].
  destruct (_query_state y) as [r y1].
  destruct (interpret_payload (Py.str r) y1) as [u y2]. reflexivity.
Qed.

(** [_async_update] when there is no state command: nothing happens. *)
Lemma async_update_skip (y : Sys) :
  Py.truthy_opt (_command_state (self y)) = false ->
  run _async_update y = (tt, y).
Proof.
  intros H. unfold _async_update.
  cbn [run cbind act]. cbv [get_self]. rewrite H. reflexivity.
Qed.

(** The state query does not touch the entity. *)
Lemma query_state_self (y : Sys) : self (snd (_query_state y)) = self y.
Proof.
  unfold _query_state, _query_state_value, _query_state_code. sync.
  destruct (_command_state (self y)) as [c|]; [|reflexivity].
  destruct (Py.truthy c); [|reflexivity].
  destruct (_value_template (self y)); reflexivity.
Qed.

(** The entity after [_async_update], when there is a state command:
    [_attr_is_on] is the interpretation of the payload, and the name has
    been rendered. *)
Lemma async_update_self (y : Sys) (c : string) :
  _command_state (self y) = Some c -> Py.truthy c = true ->
  self (exec _async_update y) =
  rerendered (state_payload y)
    (with_is_on (interpret (state_payload y) (rendered_value (self y) (state_payload y)))
       (self y)).
Proof.
  intros Hc Ht. unfold exec, state_payload.
  rewrite (async_update_run y c Hc Ht).
  pose proof (query_state_self y) as Hq.
  destruct (_query_state y) as [r y1]. cbn [fst snd] in *.
  rewrite interpret_payload_run. cbn [snd self]. rewrite Hq. reflexivity.
Qed.

Lemma state_payload_value (y : Sys) (c : string) (t : Template) :
  _command_state (self y) = Some c -> Py.truthy c = true ->
  _value_template (self y) = Some t ->
  state_payload y = Py.str (of_output (state_command_stdout y)).
Proof.
  intros Hc Ht Hv. unfold state_payload, state_command_stdout.
  rewrite (query_state_value_run y c t Hc Ht Hv), Hc. reflexivity.
Qed.

(** ** Construction *)

(** C10: a freshly constructed switch reports Off ([False]), not Unknown
    ([None]), whatever its configuration. *)
Theorem init_is_off (config : ConfigType) (object_id command_on command_off : string)
    (command_state : option string) (value_template : option Template)
    (timeout scan_interval : Z) :
  let s := __init__ config object_id command_on command_off command_state
             value_template timeout scan_interval in
  is_on s = Some false /\ is_on s <> None.
Proof.
  cbn. split; [reflexivity | discriminate].
Qed.

(** ** The interpretation of the state query *)

(** C7: when the template renders a non-empty value, that value alone is
    lowercased and compared with "true", whatever the state command printed
    (or failed to print); in particular a rendered "true" gives On. *)
Theorem extracted_value_is_preferred (y : Sys) (c : string) (t : Template) (v : string) :
  _command_state (self y) = Some c -> Py.truthy c = true ->
  _value_template (self y) = Some t ->
  async_render_with_possible_json_value t
    (Py.str (of_output (state_command_stdout y))) = Some v ->
  v <> "" ->
  is_on (self (exec _async_update y)) = Some (Py.lower v =? "true")%string /\
  (v = "true" -> is_on (self (exec _async_update y)) = Some true).
Proof.
  intros Hc Ht Hv Hr Hne.
  assert (H : is_on (self (exec _async_update y)) = Some (Py.lower v =? "true")%string).
  { rewrite (async_update_self y c Hc Ht).
    rewrite (state_payload_value y c t Hc Ht Hv).
    unfold rendered_value. rewrite Hv, Hr.
    unfold interpret, is_on. cbn [with_is_on _attr_is_on].
    rewrite (or_else_truthy v _ Hne).
    destruct v as [|a r]; [contradiction Hne; reflexivity|].
    cbn [Py.truthy_opt Py.truthy]. rewrite orb_true_r. reflexivity. }
  split; [exact H|]. intros ->. exact H.
Qed.

Lemma extracted_value_is_preferred_witness :
  is_on (self (exec _async_update
                 (demo_sys (Some "cat /tmp/s") (Some true_template) 0 (Some "anything"))))
  = Some true.
Proof.
  apply (extracted_value_is_preferred
           (demo_sys (Some "cat /tmp/s") (Some true_template) 0 (Some "anything"))
           "cat /tmp/s" true_template "true");
    [reflexivity | reflexivity | reflexivity | reflexivity | discriminate | reflexivity].
Defined.

(** The state left by [_async_update] when the template renders nothing
    usable: the payload alone decides. *)
Lemma async_update_raw (y : Sys) (c : string) :
  _command_state (self y) = Some c -> Py.truthy c = true ->
  Py.truthy_opt (rendered_value (self y) (state_payload y)) = false ->
  is_on (self (exec _async_update y)) =
  if Py.truthy (state_payload y)
  then Some (Py.lower (state_payload y) =? "true")%string
  else None.
Proof.
  intros Hc Ht Hf. rewrite (async_update_self y c Hc Ht).
  unfold interpret, is_on. cbn [with_is_on _attr_is_on].
  rewrite Hf, orb_false_r, (or_else_falsy _ _ Hf). reflexivity.
Qed.

(** C1, as the code has it: with a value template that renders nothing
    usable, and a state command whose output was captured (already trimmed
    by the process helper), the state is On iff the trimmed, lowercased
    output is "true", Off for any other non-empty output, and Unknown iff
    the output is empty.  (Without a template the output is not read at
    all: the exit code decides.) *)
Theorem raw_output_with_template (y : Sys) (c : string) (t : Template) (s : string) :
  _command_state (self y) = Some c -> Py.truthy c = true ->
  _value_template (self y) = Some t ->
  state_command_stdout y = Some s ->
  Py.strip s = s ->
  Py.truthy_opt (async_render_with_possible_json_value t s) = false ->
  let st := is_on (self (exec _async_update y)) in
  (st = Some true <-> Py.lower (Py.strip s) = "true") /\
  (st = Some false <-> s <> "" /\ Py.lower (Py.strip s) <> "true") /\
  (st = None <-> s = "").
Proof.
  intros Hc Ht Hv Ho Hs Hr st.
  assert (Hp : state_payload y = s).
  { rewrite (state_payload_value y c t Hc Ht Hv), Ho. reflexivity. }
  assert (Hst : st = if Py.truthy s
                     then Some (Py.lower s =? "true")%string else None).
  { unfold st. rewrite (async_update_raw y c Hc Ht); rewrite Hp; [reflexivity|].
    unfold rendered_value. rewrite Hv. exact Hr. }
  rewrite Hs, Hst. clear Hst st Hp.
  destruct s as [|a r]; cbn [Py.truthy].
  - split; [|split]; split; intros H;
      try discriminate H; try reflexivity.
    destruct H as [H _]. contradiction H.
  - destruct (String.eqb_spec (Py.lower (String a r)) "true") as [E|E];
      (split; [|split]); split; intros H;
      try discriminate H; try reflexivity; try assumption.
    + destruct H as [_ H]. contradiction.
    + contradiction.
    + split; [discriminate | assumption].
Qed.

Lemma raw_output_with_template_witness :
  let st := is_on (self (exec _async_update
              (demo_sys (Some "cat /tmp/s") (Some failing_template) 0 (Some "TRUE")))) in
  (st = Some true <-> Py.lower (Py.strip "TRUE") = "true") /\
  (st = Some false <-> "TRUE" <> "" /\ Py.lower (Py.strip "TRUE") <> "true") /\
  (st = None <-> "TRUE" = "").
Proof.
  apply (raw_output_with_template
           (demo_sys (Some "cat /tmp/s") (Some failing_template) 0 (Some "TRUE"))
           "cat /tmp/s" failing_template "TRUE"); reflexivity.
Defined.

(** C1 as stated fails on the code.  Without a template the text that the
    state command prints is not read: a command that prints "false" and
    exits with 0 gives On.  With a template that renders nothing, a state
    command that fails (no output) gives Off, not Unknown. *)
Lemma raw_output_decides_counterexample :
  ~ raw_output_decides (demo_sys (Some "echo false") None 0 (Some "false")) /\
  ~ raw_output_decides (demo_sys (Some "cat /missing") (Some failing_template) 1 None).
Proof.
  split; intros H.
  - destruct (H eq_refl) as [[H1 _] _].
    destruct (H1 eq_refl) as [s [Hs Hl]].
    cbv in Hs. injection Hs as <-. discriminate Hl.
  - destruct (H eq_refl) as [_ [_ [_ H3]]].
    specialize (H3 (or_introl eq_refl)). discriminate H3.
Qed.

(** ** The two ways of querying the state *)

(** The whole system after [_async_update], when a template is configured. *)
Lemma async_update_value_mode (y : Sys) (c : string) (t : Template) :
  _command_state (self y) = Some c -> Py.truthy c = true ->
  _value_template (self y) = Some t ->
  let payload := Py.str (of_output (state_command_stdout y)) in
  exec _async_update y =
  {| self := rerendered payload
               (with_is_on
                  (interpret payload (async_render_with_possible_json_value t payload))
                  (self y));
     trace := (trace y ++
               [Log INFO "Running state value command: %s" [AStr c];
                Ran_check_output_or_log c (_timeout (self y));
                Rendered payload;
                ProcessManualData payload;
                UpdateHaState true])%list;
     world := tick (world y) |}.
Proof.
  intros Hc Ht Hv payload. unfold exec.
  rewrite (async_update_run y c Hc Ht), (query_state_value_run y c t Hc Ht Hv).
  rewrite interpret_payload_run. cbn [snd self trace world].
  unfold rendered_value, payload, state_command_stdout. rewrite Hv, Hc.
  repeat rewrite <- app_assoc. reflexivity.
Qed.

(** The whole system after [_async_update], when no template is configured. *)
Lemma async_update_code_mode (y : Sys) (c : string) :
  _command_state (self y) = Some c -> Py.truthy c = true ->
  _value_template (self y) = None ->
  let ok := state_command_exit_code y =? 0 in
  exec _async_update y =
  {| self := rerendered (Py.str (Py.PyBool ok)) (with_is_on (Some ok) (self y));
     trace := (trace y ++
               [Log INFO "Running state code command: %s" [AStr c];
                Ran_call_shell_with_timeout c (_timeout (self y)) false;
                ProcessManualData (Py.str (Py.PyBool ok));
                UpdateHaState true])%list;
     world := tick (world y) |}.
Proof.
  intros Hc Ht Hv ok. unfold exec.
  rewrite (async_update_run y c Hc Ht), (query_state_code_run y c Hc Ht Hv).
  rewrite interpret_payload_run. cbn [snd self trace world].
  unfold rendered_value, ok, state_command_exit_code. rewrite Hv, Hc.
  repeat rewrite <- app_assoc. cbn [app].
  destruct (exit_code (world y) (clock (world y)) c (_timeout (self y)) =? 0);
    reflexivity.
Qed.

(** C8: with a template, [_async_update] runs the state command through
    [check_output_or_log] (output captured) and hands the payload, which is
    the captured output when there is one, to the template, whose rendering
    is the extracted value; without a template it runs the state command
    through [call_shell_with_timeout] only, and neither captures output nor
    renders anything. *)
Theorem refresh_query_mode (y : Sys) (c : string) :
  _command_state (self y) = Some c -> Py.truthy c = true ->
  match _value_template (self y) with
  | Some t =>
      let payload := Py.str (of_output (state_command_stdout y)) in
      trace (exec _async_update y) =
        (trace y ++
         [Log INFO "Running state value command: %s" [AStr c];
          Ran_check_output_or_log c (_timeout (self y));
          Rendered payload;
          ProcessManualData payload;
          UpdateHaState true])%list /\
      (forall s, state_command_stdout y = Some s -> payload = s) /\
      is_on (self (exec _async_update y)) =
        interpret payload (async_render_with_possible_json_value t payload)
  | None =>
      let ok := state_command_exit_code y =? 0 in
      trace (exec _async_update y) =
        (trace y ++
         [Log INFO "Running state code command: %s" [AStr c];
          Ran_call_shell_with_timeout c (_timeout (self y)) false;
          ProcessManualData (Py.str (Py.PyBool ok));
          UpdateHaState true])%list
  end.
Proof.
  intros Hc Ht. destruct (_value_template (self y)) as [t|] eqn:Hv.
  - cbv zeta. rewrite (async_update_value_mode y c t Hc Ht Hv).
    cbn [trace self]. repeat split.
    intros s ->. reflexivity.
  - cbv zeta. rewrite (async_update_code_mode y c Hc Ht Hv). reflexivity.
Qed.

Lemma refresh_query_mode_witness :
  trace (exec _async_update
           (demo_sys (Some "cat /tmp/s") (Some true_template) 0 (Some "1"))) =
    [Log INFO "Running state value command: %s" [AStr "cat /tmp/s"];
     Ran_check_output_or_log "cat /tmp/s" 15;
     Rendered "1";
     ProcessManualData "1";
     UpdateHaState true] /\
  trace (exec _async_update (demo_sys (Some "test -f /tmp/s") None 0 (Some ""))) =
    [Log INFO "Running state code command: %s" [AStr "test -f /tmp/s"];
     Ran_call_shell_with_timeout "test -f /tmp/s" 15 false;
     ProcessManualData "True";
     UpdateHaState true].
Proof.
  split.
  - exact (proj1 (refresh_query_mode
                    (demo_sys (Some "cat /tmp/s") (Some true_template) 0 (Some "1"))
                    "cat /tmp/s" eq_refl eq_refl)).
  - exact (refresh_query_mode
             (demo_sys (Some "test -f /tmp/s") None 0 (Some ""))
             "test -f /tmp/s" eq_refl eq_refl).
Defined.

(** C9: with a state command and no template, [_async_update] sets the state
    to On exactly when the exit code of the state command is 0 and to Off
    otherwise, never to Unknown; and what the command prints has no
    influence on the entity or on the effects of the refresh. *)
Theorem exit_code_decides (y : Sys) (c : string) :
  _command_state (self y) = Some c -> Py.truthy c = true ->
  _value_template (self y) = None ->
  is_on (self (exec _async_update y)) = Some (state_command_exit_code y =? 0) /\
  (is_on (self (exec _async_update y)) = Some true <-> state_command_exit_code y = 0) /\
  is_on (self (exec _async_update y)) <> None /\
  (forall f, self (exec _async_update (with_stdout f y)) = self (exec _async_update y) /\
             trace (exec _async_update (with_stdout f y)) = trace (exec _async_update y)).
Proof.
  intros Hc Ht Hv.
  rewrite (async_update_code_mode y c Hc Ht Hv). cbn [self trace with_is_on is_on _attr_is_on].
  split; [reflexivity|]. split; [|split].
  - split; intros H.
    + injection H as H. apply Z.eqb_eq. exact H.
    + rewrite H. reflexivity.
  - discriminate.
  - intros f.
    rewrite (async_update_code_mode (with_stdout f y) c Hc Ht Hv). split; reflexivity.
Qed.

Lemma exit_code_decides_witness :
  is_on (self (exec _async_update (demo_sys (Some "test -f /tmp/s") None 1 (Some "true"))))
  = Some false.
Proof.
  exact (proj1 (exit_code_decides
                  (demo_sys (Some "test -f /tmp/s") None 1 (Some "true"))
                  "test -f /tmp/s" eq_refl eq_refl eq_refl)).
Defined.

(** ** Exceptions in a refresh *)

Lemma raises_cbind {A B : Type} (F : Faults) (c : Coro A) (f : A -> Coro B) (y : Sys) :
  raises F (cbind c f) y =
  if raises F c y then true else let (a, y') := run c y in raises F (f a) y'.
Proof.
  revert y. induction c as [a | X m k IH | X pt job k IH]; intros y;
    cbn [cbind raises run].
  - reflexivity.
  - destruct (m y) as [x y']. destruct (raised F _ _); [reflexivity | apply IH].
  - destruct (job y) as [x y']. destruct (raised F _ _); [reflexivity | apply IH].
Qed.

Lemma raises_async_update_skip (F : Faults) (y : Sys) :
  Py.truthy_opt (_command_state (self y)) = false ->
  raises F _async_update y = false.
Proof.
  intros H. unfold _async_update. cbn [raises cbind act]. sync. faults.
  rewrite H. reflexivity.
Qed.

Lemma raises_async_update_code (F : Faults) (y : Sys) (c : string) :
  _command_state (self y) = Some c -> Py.truthy c = true ->
  _value_template (self y) = None ->
  let n := length (trace y) in
  let payload := Py.str (Py.PyBool (state_command_exit_code y =? 0)) in
  raises F _async_update y =
  F (1 + n)%nat (Ran_call_shell_with_timeout c (_timeout (self y)) false) ||
  F (2 + n)%nat (ProcessManualData payload) ||
  F (3 + n)%nat (UpdateHaState true).
Proof.
  intros Hc Ht Hv n payload. unfold _async_update.
  cbn [raises cbind act await]. sync. rewrite Hc. cbn [Py.truthy_opt]. rewrite Ht.
  cbn [raises cbind act await].
  rewrite (query_state_code_run y c Hc Ht Hv), interpret_payload_run.
  sync. cbn [self]. rewrite Hv. faults. cbn [app raised is_call andb]. positions.
  unfold n, payload, state_command_exit_code. rewrite Hc. cbn [Nat.add].
  repeat destruct (F _ _); reflexivity.
Qed.

Lemma raises_async_update_value (F : Faults) (y : Sys) (c : string) (t : Template) :
  _command_state (self y) = Some c -> Py.truthy c = true ->
  _value_template (self y) = Some t ->
  let n := length (trace y) in
  let payload := Py.str (of_output (state_command_stdout y)) in
  raises F _async_update y =
  F (1 + n)%nat (Ran_check_output_or_log c (_timeout (self y))) ||
  F (2 + n)%nat (Rendered payload) ||
  F (3 + n)%nat (ProcessManualData payload) ||
  F (4 + n)%nat (UpdateHaState true).
Proof.
  intros Hc Ht Hv n payload. unfold _async_update.
  cbn [raises cbind act await]. sync. rewrite Hc. cbn [Py.truthy_opt]. rewrite Ht.
  cbn [raises cbind act await].
  rewrite (query_state_value_run y c t Hc Ht Hv), interpret_payload_run.
  sync. cbn [self]. rewrite Hv. faults. cbn [app raised is_call andb]. positions.
  unfold n, payload, state_command_stdout. rewrite Hc. cbn [Nat.add].
  repeat destruct (F _ _); reflexivity.
Qed.

(** C2, as the code has it.  Without a template, a state command that
    fails (exit code other than 0, which is also what a timeout gives)
    leaves the state Off.  With a template, a state command that printed
    nothing, from which the template renders nothing usable, leaves the
    state Unknown.  In each case the failure is not an exception: the
    refresh raises exactly when one of the calls that it makes raises (the
    process helper, the rendering of the template, [_process_manual_data]
    or [async_update_ha_state]), the payload handed on being the text
    False, None or the empty text. *)
Theorem failed_query_state (y : Sys) (c : string) :
  _command_state (self y) = Some c -> Py.truthy c = true ->
  let n := length (trace y) in
  (_value_template (self y) = None -> state_command_exit_code y <> 0 ->
   is_on (self (exec _async_update y)) = Some false /\
   forall F : Faults,
     raises F _async_update y =
     F (1 + n)%nat (Ran_call_shell_with_timeout c (_timeout (self y)) false) ||
     F (2 + n)%nat (ProcessManualData "False") ||
     F (3 + n)%nat (UpdateHaState true)) /\
  (forall t, _value_template (self y) = Some t ->
     (state_command_stdout y = None ->
      forall F : Faults,
        raises F _async_update y =
        F (1 + n)%nat (Ran_check_output_or_log c (_timeout (self y))) ||
        F (2 + n)%nat (Rendered "None") ||
        F (3 + n)%nat (ProcessManualData "None") ||
        F (4 + n)%nat (UpdateHaState true)) /\
     (state_command_stdout y = Some "" ->
      (Py.truthy_opt (async_render_with_possible_json_value t "") = false ->
       is_on (self (exec _async_update y)) = None) /\
      forall F : Faults,
        raises F _async_update y =
        F (1 + n)%nat (Ran_check_output_or_log c (_timeout (self y))) ||
        F (2 + n)%nat (Rendered "") ||
        F (3 + n)%nat (ProcessManualData "") ||
        F (4 + n)%nat (UpdateHaState true))).
Proof.
  intros Hc Ht n. split.
  - intros Hv Hrc.
    assert (E : (state_command_exit_code y =? 0) = false).
    { destruct (Z.eqb_spec (state_command_exit_code y) 0); [contradiction | reflexivity]. }
    split.
    + rewrite (async_update_code_mode y c Hc Ht Hv).
      cbn [self rerendered with_name with_is_on is_on _attr_is_on]. rewrite E. reflexivity.
    + intros F. rewrite (raises_async_update_code F y c Hc Ht Hv). cbv zeta.
      rewrite E. reflexivity.
  - intros t Hv. split.
    + intros Ho F. rewrite (raises_async_update_value F y c t Hc Ht Hv). cbv zeta.
      rewrite Ho. reflexivity.
    + intros Ho. split.
      * intros Hr. rewrite (async_update_value_mode y c t Hc Ht Hv).
        cbn [self rerendered with_name with_is_on is_on _attr_is_on]. rewrite Ho.
        cbn [of_output Py.str]. unfold interpret. rewrite Hr. reflexivity.
      * intros F. rewrite (raises_async_update_value F y c t Hc Ht Hv). cbv zeta.
        rewrite Ho. reflexivity.
Qed.

Lemma failed_query_state_witness :
  is_on (self (exec _async_update (demo_sys (Some "test -f /tmp/s") None 1 None)))
    = Some false /\
  raises no_fault _async_update (demo_sys (Some "test -f /tmp/s") None 1 None) = false /\
  is_on (self (exec _async_update
                 (demo_sys (Some "cat /tmp/s") (Some failing_template) 0 (Some ""))))
    = None /\
  raises rendering_raises _async_update
    (demo_sys (Some "cat /tmp/s") (Some failing_template) 0 (Some "")) = true.
Proof.
  assert (P : state_command_exit_code (demo_sys (Some "test -f /tmp/s") None 1 None) <> 0)
    by (cbv; discriminate).
  destruct (failed_query_state (demo_sys (Some "test -f /tmp/s") None 1 None)
              "test -f /tmp/s" eq_refl eq_refl) as [H1 _].
  destruct (H1 eq_refl P) as [Hoff Hraise].
  destruct (failed_query_state
              (demo_sys (Some "cat /tmp/s") (Some failing_template) 0 (Some ""))
              "cat /tmp/s" eq_refl eq_refl) as [_ H2].
  destruct (H2 failing_template eq_refl) as [_ H3].
  destruct (H3 eq_refl) as [Hnone Hraise'].
  split; [exact Hoff|]. split; [exact (eq_trans (Hraise no_fault) eq_refl)|].
  split; [exact (Hnone eq_refl) | exact (eq_trans (Hraise' rendering_raises) eq_refl)].
Defined.

(** C2 as stated fails on the code.  Without a template, a state command
    that exits with 1 and prints nothing leaves the state Off, not Unknown.
    With a template, a state command that fails, followed by a rendering
    that raises, makes the refresh raise. *)
Lemma failed_query_is_unknown_counterexample :
  ~ failed_query_is_unknown (demo_sys (Some "test -f /tmp/s") None 1 None) /\
  ~ failed_query_returns rendering_raises
      (demo_sys (Some "cat /missing") (Some failing_template) 1 None).
Proof.
  split; intros H.
  - assert (P : state_command_exit_code (demo_sys (Some "test -f /tmp/s") None 1 None) <> 0)
      by (cbv; discriminate).
    specialize (H (or_introl P)). cbv in H. discriminate H.
  - specialize (H (or_intror (or_introl eq_refl))). cbv in H. discriminate H.
Qed.

(** ** The poll guard and the two actions, run alone *)

Lemma run_cbind {A B : Type} (c : Coro A) (f : A -> Coro B) (y : Sys) :
  run (cbind c f) y = let (a, y') := run c y in run (f a) y'.
Proof.
  revert y. induction c as [a | X m k IH | X pt job k IH]; intros y; cbn [cbind run].
  - reflexivity.
  - destruct (m y) as [x y']. apply IH.
  - destruct (job y) as [x y']. apply IH.
Qed.

(** [_update_entity_state]: a held lock gives one warning and nothing else;
    otherwise [_async_update] runs with the lock held, and the lock is
    released. *)
Lemma update_entity_state_run (now : option Z) (y : Sys) :
  run (_update_entity_state now) y =
  if locked (self y)
  then (tt, {| self := self y;
               trace := (trace y ++ [poll_warning (self y)])%list;
               world := world y |})
  else
    let y1 := exec _async_update
                {| self := with_process_updates (Some true) (self y);
                   trace := trace y;
                   world := world y |} in
    (tt, {| self := with_process_updates (Some false) (self y1);
            trace := trace y1;
            world := world y1 |}).
Proof.
  unfold _update_entity_state, locked, exec. coro. sync.
  destruct (_process_updates (self y)) as [[|]|] eqn:Hl; sync; coro; sync;
    unfold locked; cbn [with_process_updates _process_updates]; try rewrite Hl;
    coro; sync; try reflexivity.
  - rewrite run_cbind.
    destruct (run _async_update _) as [u y1]. reflexivity.
  - rewrite run_cbind.
    destruct (run _async_update _) as [u y1]. reflexivity.
Qed.

(** Without a state command a poll changes nothing but the lock, which it
    creates if need be and leaves free, or, if the lock is held, the trace. *)
Lemma update_entity_state_assumed (now : option Z) (y : Sys) :
  Py.truthy_opt (_command_state (self y)) = false ->
  is_on (self (exec (_update_entity_state now) y)) = is_on (self y).
Proof.
  intros H. unfold exec at 1. rewrite update_entity_state_run.
  destruct (locked (self y)); [reflexivity|].
  cbv zeta. unfold exec. rewrite async_update_skip; [reflexivity | exact H].
Qed.

(** The system when [async_turn_on] (or [async_turn_off]) reaches its call
    of [_update_entity_state]. *)
Lemma switch_run (command : string) (y : Sys) :
  run (_switch command) y =
  let ok := exit_code (world y) (clock (world y)) command (_timeout (self y)) =? 0 in
  (ok, {| self := self y;
          trace := (trace y ++
                    [Log INFO "Running command: %s" [AStr command];
                     Ran_call_shell_with_timeout command (_timeout (self y)) true] ++
                    (if ok then [] else [Log ERROR "Command failed: %s" [AStr command]]))%list;
          world := tick (world y) |}).
Proof.
  unfold _switch. coro. sync. coro. sync.
  destruct (exit_code (world y) (clock (world y)) command (_timeout (self y)) =? 0);
    cbn [negb]; sync; repeat rewrite <- app_assoc; reflexivity.
Qed.

Lemma turn_on_run (y : Sys) :
  run async_turn_on y =
  let s := self y in
  let ok := exit_code (world y) (clock (world y)) (_command_on s) (_timeout s) =? 0 in
  let optimistic := ok && negb (Py.truthy_opt (_command_state s)) in
  run (_update_entity_state None)
    {| self := if optimistic then with_is_on (Some true) s else s;
       trace := (trace y ++
                 [Log INFO "Running command: %s" [AStr (_command_on s)];
                  Ran_call_shell_with_timeout (_command_on s) (_timeout s) true] ++
                 (if ok then [] else [Log ERROR "Command failed: %s" [AStr (_command_on s)]]) ++
                 (if optimistic then [ScheduleUpdateHaState] else []))%list;
       world := tick (world y) |}.
Proof.
  unfold async_turn_on. coro. sync. rewrite run_cbind, switch_run. cbv zeta.
  coro. sync.
  destruct (exit_code (world y) (clock (world y)) (_command_on (self y))
              (_timeout (self y)) =? 0);
    destruct (Py.truthy_opt (_command_state (self y)));
    cbn [andb negb]; sync; repeat rewrite <- app_assoc; cbn [app];
    try rewrite app_nil_r; reflexivity.
Qed.

Lemma turn_off_run (y : Sys) :
  run async_turn_off y =
  let s := self y in
  let ok := exit_code (world y) (clock (world y)) (_command_off s) (_timeout s) =? 0 in
  let optimistic := ok && negb (Py.truthy_opt (_command_state s)) in
  run (_update_entity_state None)
    {| self := if optimistic then with_is_on (Some false) s else s;
       trace := (trace y ++
                 [Log INFO "Running command: %s" [AStr (_command_off s)];
                  Ran_call_shell_with_timeout (_command_off s) (_timeout s) true] ++
                 (if ok then [] else [Log ERROR "Command failed: %s" [AStr (_command_off s)]]) ++
                 (if optimistic then [ScheduleUpdateHaState] else []))%list;
       world := tick (world y) |}.
Proof.
  unfold async_turn_off. coro. sync. rewrite run_cbind, switch_run. cbv zeta.
  coro. sync.
  destruct (exit_code (world y) (clock (world y)) (_command_off (self y))
              (_timeout (self y)) =? 0);
    destruct (Py.truthy_opt (_command_state (self y)));
    cbn [andb negb]; sync; repeat rewrite <- app_assoc; cbn [app];
    try rewrite app_nil_r; reflexivity.
Qed.

Lemma turn_run (on : bool) (y : Sys) :
  run (turn on) y =
  let s := self y in
  let ok := exit_code (world y) (clock (world y)) (command_of on s) (_timeout s) =? 0 in
  let optimistic := ok && negb (Py.truthy_opt (_command_state s)) in
  run (_update_entity_state None)
    {| self := if optimistic then with_is_on (Some on) s else s;
       trace := (trace y ++
                 [Log INFO "Running command: %s" [AStr (command_of on s)];
                  Ran_call_shell_with_timeout (command_of on s) (_timeout s) true] ++
                 (if ok then [] else [Log ERROR "Command failed: %s" [AStr (command_of on s)]]) ++
                 (if optimistic then [ScheduleUpdateHaState] else []))%list;
       world := tick (world y) |}.
Proof.
  destruct on; [apply turn_on_run | apply turn_off_run].
Qed.

(** *** Exceptions in the guard and the actions *)

Lemma raises_switch (F : Faults) (command : string) (y : Sys) :
  raises F (_switch command) y =
  F (S (length (trace y))) (Ran_call_shell_with_timeout command (_timeout (self y)) true).
Proof.
  unfold _switch. cbn [raises cbind act await]. sync.
  destruct (exit_code (world y) (clock (world y)) command (_timeout (self y)) =? 0);
    cbn [negb]; sync; faults; positions; destruct (F _ _); reflexivity.
Qed.

Lemma raises_update_entity_state (F : Faults) (now : option Z) (y : Sys) :
  raises F (_update_entity_state now) y =
  if locked (self y) then false
  else raises F _async_update
         {| self := with_process_updates (Some true) (self y);
            trace := trace y;
            world := world y |}.
Proof.
  unfold _update_entity_state, locked. cbn [raises cbind act]. sync.
  destruct (_process_updates (self y)) as [[|]|] eqn:Hl; sync; faults;
    cbn [raises cbind act]; sync; faults;
    unfold locked; cbn [with_process_updates _process_updates]; try rewrite Hl;
    cbn [raises cbind act]; sync; faults; try reflexivity.
  - rewrite raises_cbind.
    destruct (raises F _async_update _); [reflexivity|].
    destruct (run _async_update _) as [u y1]. cbn [raises act]. sync. faults. reflexivity.
  - rewrite raises_cbind.
    destruct (raises F _async_update _); [reflexivity|].
    destruct (run _async_update _) as [u y1]. cbn [raises act]. sync. faults. reflexivity.
Qed.

Lemma raises_turn (F : Faults) (on : bool) (y : Sys) :
  let s := self y in
  let n := length (trace y) in
  let ok := exit_code (world y) (clock (world y)) (command_of on s) (_timeout s) =? 0 in
  let optimistic := ok && negb (Py.truthy_opt (_command_state s)) in
  raises F (turn on) y =
  F (1 + n)%nat (Ran_call_shell_with_timeout (command_of on s) (_timeout s) true) ||
  (optimistic && F (2 + n)%nat ScheduleUpdateHaState) ||
  raises F (_update_entity_state None)
    {| self := if optimistic then with_is_on (Some on) s else s;
       trace := (trace y ++
                 [Log INFO "Running command: %s" [AStr (command_of on s)];
                  Ran_call_shell_with_timeout (command_of on s) (_timeout s) true] ++
                 (if ok then [] else [Log ERROR "Command failed: %s" [AStr (command_of on s)]]) ++
                 (if optimistic then [ScheduleUpdateHaState] else []))%list;
       world := tick (world y) |}.
Proof.
  cbv zeta.
  destruct on; unfold turn, async_turn_on, async_turn_off, command_of;
    cbn [raises cbind act]; sync; faults;
    rewrite raises_cbind, raises_switch, switch_run; cbv zeta; cbn [self trace];
    cbn [Nat.add];
    (destruct (F (S (length (trace y))) _); [reflexivity|]);
    cbn [orb raises cbind act]; sync; faults;
    (destruct (exit_code (world y) (clock (world y)) _ (_timeout (self y)) =? 0);
     destruct (Py.truthy_opt (_command_state (self y)));
     cbn [andb negb orb]; sync; faults; cbn [app raised is_call andb]; positions;
     repeat rewrite <- app_assoc; cbn [app]; try rewrite app_nil_r;
     try (destruct (F _ ScheduleUpdateHaState)); reflexivity).
Qed.

(** ** The actions *)

(** C6: [async_turn_on] runs the on-command through
    [call_shell_with_timeout] (exit code only, nothing captured); if the
    exit code is 0 and there is no state command it sets the state to On at
    once and tells the host ([async_schedule_update_ha_state]); and in every
    case what follows is one call of [_update_entity_state], the poll
    guard.  In assumed-state mode the state is On when the call ends.
    [async_turn_off] does the same with the off-command and Off. *)
Theorem turn_runs_command_then_refreshes (on : bool) (y : Sys) :
  let s := self y in
  let command := command_of on s in
  let ok := exit_code (world y) (clock (world y)) command (_timeout s) =? 0 in
  let optimistic := ok && negb (Py.truthy_opt (_command_state s)) in
  run (turn on) y =
    run (_update_entity_state None)
      {| self := if optimistic then with_is_on (Some on) s else s;
         trace := (trace y ++
                   [Log INFO "Running command: %s" [AStr command];
                    Ran_call_shell_with_timeout command (_timeout s) true] ++
                   (if ok then [] else [Log ERROR "Command failed: %s" [AStr command]]) ++
                   (if optimistic then [ScheduleUpdateHaState] else []))%list;
         world := tick (world y) |} /\
  (ok = true -> assumed_state s = true ->
   run (turn on) y =
     run (_update_entity_state None)
       {| self := with_is_on (Some on) s;
          trace := (trace y ++
                    [Log INFO "Running command: %s" [AStr command];
                     Ran_call_shell_with_timeout command (_timeout s) true;
                     ScheduleUpdateHaState])%list;
          world := tick (world y) |} /\
   is_on (self (exec (turn on) y)) = Some on).
Proof.
  cbv zeta. split; [apply turn_run|].
  intros Hok Ha. unfold assumed_state in Ha.
  destruct (_command_state (self y)) as [c|] eqn:Hc; [discriminate Ha|].
  assert (E := turn_run on y). cbv zeta in E. rewrite Hok, Hc in E.
  cbn [Py.truthy_opt negb andb app] in E. split; [exact E|].
  unfold exec at 1. rewrite E.
  refine (eq_trans (update_entity_state_assumed None _ _) _); [|reflexivity].
  cbn [self with_is_on _command_state]. rewrite Hc. reflexivity.
Qed.

Lemma turn_runs_command_then_refreshes_witness :
  is_on (self (exec async_turn_on (demo_sys None None 0 None))) = Some true /\
  is_on (self (exec async_turn_off (demo_sys None None 0 None))) = Some false.
Proof.
  split.
  - exact (proj2 (proj2 (turn_runs_command_then_refreshes true
                           (demo_sys None None 0 None)) eq_refl eq_refl)).
  - exact (proj2 (proj2 (turn_runs_command_then_refreshes false
                           (demo_sys None None 0 None)) eq_refl eq_refl)).
Defined.

(** C5, as the code has it: when the command of [async_turn_on] (or
    [async_turn_off]) fails, that is, exits with a code other than 0, as it
    also does on a timeout, the error is logged and not raised, the entity
    is exactly as before when [_update_entity_state] is called, which it
    still is, and the call raises exactly when the process helper itself
    raised, or when that poll raises.  Without a state command, or when the
    poll is dropped by the guard, the state at the end of the call is the
    state before, and only the process helper can make the call raise. *)
Theorem failed_command_skips_update (on : bool) (y : Sys) :
  let s := self y in
  let command := command_of on s in
  exit_code (world y) (clock (world y)) command (_timeout s) <> 0 ->
  run (turn on) y =
    run (_update_entity_state None)
      {| self := s;
         trace := (trace y ++
                   [Log INFO "Running command: %s" [AStr command];
                    Ran_call_shell_with_timeout command (_timeout s) true;
                    Log ERROR "Command failed: %s" [AStr command]])%list;
         world := tick (world y) |} /\
  (forall F : Faults,
     raises F (turn on) y =
     F (S (length (trace y))) (Ran_call_shell_with_timeout command (_timeout s) true) ||
     raises F (_update_entity_state None)
       {| self := s;
          trace := (trace y ++
                    [Log INFO "Running command: %s" [AStr command];
                     Ran_call_shell_with_timeout command (_timeout s) true;
                     Log ERROR "Command failed: %s" [AStr command]])%list;
          world := tick (world y) |}) /\
  (Py.truthy_opt (_command_state s) = false \/ locked s = true ->
   is_on (self (exec (turn on) y)) = is_on s /\
   forall F : Faults,
     raises F (turn on) y =
     F (S (length (trace y))) (Ran_call_shell_with_timeout command (_timeout s) true)).
Proof.
  cbv zeta. intros Hrc.
  assert (E := turn_run on y). cbv zeta in E.
  assert (R := fun F => raises_turn F on y). cbv zeta in R.
  destruct (Z.eqb_spec (exit_code (world y) (clock (world y)) (command_of on (self y))
                          (_timeout (self y))) 0) as [H0|_]; [contradiction|].
  cbn [andb app] in E, R.
  assert (R' : forall F : Faults,
    raises F (turn on) y =
    F (S (length (trace y)))
      (Ran_call_shell_with_timeout (command_of on (self y)) (_timeout (self y)) true) ||
    raises F (_update_entity_state None)
      {| self := self y;
         trace := (trace y ++
                   [Log INFO "Running command: %s" [AStr (command_of on (self y))];
                    Ran_call_shell_with_timeout (command_of on (self y))
                      (_timeout (self y)) true;
                    Log ERROR "Command failed: %s" [AStr (command_of on (self y))]])%list;
         world := tick (world y) |}).
  { intros F. rewrite (R F), orb_false_r. reflexivity. }
  split; [exact E|]. split; [exact R'|].
  intros Hd. split.
  - destruct Hd as [Hc|Hl]; unfold exec at 1; rewrite E.
    + refine (eq_trans (update_entity_state_assumed None _ _) _);
        [exact Hc | reflexivity].
    + rewrite update_entity_state_run. cbn [self]. rewrite Hl. reflexivity.
  - intros F. rewrite (R' F), raises_update_entity_state. cbn [self].
    destruct Hd as [Hc|Hl].
    + destruct (locked (self y)); [apply orb_false_r|].
      rewrite raises_async_update_skip; [apply orb_false_r | exact Hc].
    + rewrite Hl. apply orb_false_r.
Qed.

Lemma failed_command_skips_update_witness :
  trace (exec async_turn_on (demo_sys None None 1 None)) =
    [Log INFO "Running command: %s" [AStr "echo 1 > /tmp/s"];
     Ran_call_shell_with_timeout "echo 1 > /tmp/s" 15 true;
     Log ERROR "Command failed: %s" [AStr "echo 1 > /tmp/s"]] /\
  is_on (self (exec async_turn_on (demo_sys None None 1 None))) = Some false /\
  raises rendering_raises async_turn_on (demo_sys None None 1 None) = false.
Proof.
  assert (P : exit_code (world (demo_sys None None 1 None))
                (clock (world (demo_sys None None 1 None)))
                (command_of true (self (demo_sys None None 1 None)))
                (_timeout (self (demo_sys None None 1 None))) <> 0)
    by (cbv; discriminate).
  destruct (failed_command_skips_update true (demo_sys None None 1 None) P)
    as (H1 & _ & H3).
  destruct (H3 (or_introl eq_refl)) as [Hs Hr].
  split; [|split].
  - unfold exec. change async_turn_on with (turn true). rewrite H1. reflexivity.
  - exact Hs.
  - exact (eq_trans (Hr rendering_raises) eq_refl).
Defined.

(** C5 as stated fails on the code: when the on-command fails and there is
    a state command, the poll that follows runs the refresh, and a
    rendering that raises there makes the call raise, although the process
    helper has returned. *)
Lemma failed_command_returns_counterexample :
  ~ failed_command_returns rendering_raises true
      (demo_sys (Some "cat /tmp/s") (Some true_template) 1 (Some "1")).
Proof.
  intros H.
  assert (P : exit_code (world (demo_sys (Some "cat /tmp/s") (Some true_template) 1 (Some "1")))
                (clock (world (demo_sys (Some "cat /tmp/s") (Some true_template) 1
                                 (Some "1"))))
                (command_of true
                   (self (demo_sys (Some "cat /tmp/s") (Some true_template) 1 (Some "1"))))
                (_timeout
                   (self (demo_sys (Some "cat /tmp/s") (Some true_template) 1 (Some "1"))))
              <> 0)
    by (cbv; discriminate).
  specialize (H P eq_refl). cbv in H. discriminate H.
Qed.

(** ** Assumed state *)

(** C4, as the code has it: without a state command a refresh, guarded or
    not, leaves the state as it is; a turn_on whose command succeeds,
    followed by a refresh, leaves the state On. *)
Theorem assumed_state_refresh_is_noop (now : option Z) (y : Sys) :
  _command_state (self y) = None ->
  is_on (self (exec _async_update y)) = is_on (self y) /\
  is_on (self (exec (_update_entity_state now) y)) = is_on (self y) /\
  (exit_code (world y) (clock (world y)) (_command_on (self y)) (_timeout (self y)) = 0 ->
   is_on (self (exec (_update_entity_state now) (exec async_turn_on y))) = Some true).
Proof.
  intros Hc.
  assert (Hf : Py.truthy_opt (_command_state (self y)) = false) by (rewrite Hc; reflexivity).
  split; [|split].
  - unfold exec. rewrite (async_update_skip y Hf). reflexivity.
  - apply update_entity_state_assumed. exact Hf.
  - intros Hrc.
    assert (E := turn_on_run y). cbv zeta in E. rewrite Hrc, Hf in E.
    cbn [Z.eqb andb negb app] in E.
    assert (Hon : is_on (self (exec async_turn_on y)) = Some true).
    { unfold exec. rewrite E.
      refine (eq_trans (update_entity_state_assumed None _ _) _); [exact Hf | reflexivity]. }
    rewrite update_entity_state_assumed; [exact Hon|].
    unfold exec. rewrite E, update_entity_state_run. cbn [self].
    destruct (locked (with_is_on (Some true) (self y))); cbn [snd self]; [exact Hf|].
    cbv zeta. unfold exec. rewrite async_update_skip; cbn [snd self with_process_updates
      with_is_on _command_state]; exact Hf.
Qed.

Lemma assumed_state_refresh_is_noop_witness :
  is_on (self (exec (_update_entity_state None)
                 (exec async_turn_on (demo_sys None None 0 None)))) = Some true.
Proof.
  exact (proj2 (proj2 (assumed_state_refresh_is_noop None (demo_sys None None 0 None)
                         eq_refl)) eq_refl).
Defined.

(** C4 as stated fails on the code: when the on-command fails, the state
    is not set, and after turn_on and a refresh it is still Off. *)
Lemma assumed_on_after_turn_on_counterexample :
  ~ assumed_on_after_turn_on (demo_sys None None 1 None).
Proof.
  intros H. specialize (H eq_refl). cbv in H. discriminate H.
Qed.

(** ** The event loop *)

Lemma quiet_call_shell (command : string) (timeout : Z) (flag : bool) :
  quiet_job (call_shell_with_timeout command timeout flag).
Proof.
  intros y. split; [reflexivity|]. eexists. split; reflexivity.
Qed.

Lemma quiet_query_state : quiet_job _query_state.
Proof.
  intros y. split; [apply query_state_self|].
  unfold _query_state, _query_state_value, _query_state_code. sync.
  destruct (_command_state (self y)) as [c|];
    [destruct (Py.truthy c); [destruct (_value_template (self y))|]|];
    cbn [snd trace]; try rewrite <- app_assoc;
    try (eexists; split; reflexivity);
    exists []; rewrite app_nil_r; split; reflexivity.
Qed.

Lemma quiet_emit (e : Effect) : is_warning e = false -> quiet_job (emit e).
Proof.
  intros He y. split; [reflexivity|]. exists [e]. split; [reflexivity|].
  cbn [filter]. rewrite He. reflexivity.
Qed.

(** The task that [_update_entity_state] leaves waiting at line 231. *)
Lemma query_task_parked :
  QueryTask
    (Await L231 _query_state
       (fun r =>
          cbind (cbind (act (interpret_payload (Py.str r)))
                   (fun _ => await L241 (emit (UpdateHaState true))))
            (fun _ => act (modify_self (with_process_updates (Some false)))))).
Proof.
  coro. eexists _, _, _. split; [reflexivity|]. split; [apply quiet_query_state|].
  intros x y. coro. rewrite interpret_payload_run.
  eexists _, _, _, _. split; [reflexivity|]. split.
  - destruct (_value_template (self y)); reflexivity.
  - eexists _, _, _. split; [reflexivity|]. split.
    + apply quiet_emit. reflexivity.
    + intros u y'. reflexivity.
Qed.

Lemma guard_advance (now : option Z) (y : Sys) :
  polled y (fst (advance (_update_entity_state now) y))
           (snd (advance (_update_entity_state now) y)).
Proof.
  unfold polled, _update_entity_state, locked. coro. sync.
  destruct (_process_updates (self y)) as [[|]|] eqn:Hl; sync; coro; sync;
    unfold locked; cbn [with_process_updates _process_updates]; try rewrite Hl;
    coro; sync;
    try (split; reflexivity);
    unfold _async_update; coro; sync; cbn [with_process_updates _command_state];
    (destruct (Py.truthy_opt (_command_state (self y))); coro; sync;
     [split; [exact query_task_parked | reflexivity] | split; reflexivity]).
Qed.

Lemma polled_here (now : option Z) (y : Sys) :
  polled {| self := self y; trace := (trace y ++ [])%list; world := world y |}
    (fst (advance (_update_entity_state now) y))
    (snd (advance (_update_entity_state now) y)).
Proof.
  rewrite app_nil_r. destruct y as [s t w]. apply guard_advance.
Qed.

(** The task that an action leaves waiting at line 176. *)
Lemma switch_task_parked (on : bool) (y : Sys) :
  exists c,
    advance (turn on) y =
    (c, {| self := self y;
           trace := (trace y ++ [Log INFO "Running command: %s"
                                   [AStr (command_of on (self y))]])%list;
           world := world y |}) /\
    SwitchTask c.
Proof.
  destruct on; unfold turn, async_turn_on, async_turn_off, _switch; coro; sync; coro; sync;
    (eexists; split; [reflexivity|]);
    (eexists _, _, _; split; [reflexivity|]; split; [apply quiet_call_shell|]);
    intros rc y1; coro;
    (destruct (rc =? 0); cbn [negb andb]; sync;
     [destruct (Py.truthy_opt (_command_state (self y1))) eqn:Hc; cbn [negb]; sync|]).
  all: match goal with
       | |- exists c' y' s1 pre, advance ?U ?Y = _ /\ _ =>
           exists (fst (advance U Y)), (snd (advance U Y))
       end.
  - exists (self y1), []. split; [apply surjective_pairing|].
    split; [left; reflexivity|]. split; [reflexivity|]. apply polled_here.
  - eexists _, [ScheduleUpdateHaState]. split; [apply surjective_pairing|].
    split; [right; split; [reflexivity|eexists; reflexivity]|].
    split; [reflexivity|]. apply guard_advance.
  - eexists _, [Log ERROR _ _]. split; [apply surjective_pairing|].
    split; [left; reflexivity|]. split; [reflexivity|]. apply guard_advance.
  - exists (self y1), []. split; [apply surjective_pairing|].
    split; [left; reflexivity|]. split; [reflexivity|]. apply polled_here.
  - eexists _, [ScheduleUpdateHaState]. split; [apply surjective_pairing|].
    split; [right; split; [reflexivity|eexists; reflexivity]|].
    split; [reflexivity|]. apply guard_advance.
  - eexists _, [Log ERROR _ _]. split; [apply surjective_pairing|].
    split; [left; reflexivity|]. split; [reflexivity|]. apply guard_advance.
Qed.

(** *** Lists of tasks *)

Lemma remove_nth_filter {A : Type} (f : A -> bool) (l : list A) (i : nat) (a : A) :
  nth_error l i = Some a ->
  length (filter f l) = (length (filter f (remove_nth i l)) + (if f a then 1 else 0))%nat.
Proof.
  revert i. induction l as [|b r IH]; intros [|j] H; cbn in H; try discriminate H.
  - injection H as ->. cbn. destruct (f a); cbn; lia.
  - cbn. specialize (IH j H). destruct (f b); cbn; lia.
Qed.

Lemma remove_nth_Forall {A : Type} (P : A -> Prop) (l : list A) (i : nat) :
  Forall P l -> Forall P (remove_nth i l).
Proof.
  intros H. revert i. induction H as [|b r Hb Hr IH]; intros [|j]; cbn;
    try constructor; auto.
Qed.

Lemma nth_error_Forall {A : Type} (P : A -> Prop) (l : list A) (i : nat) (a : A) :
  Forall P l -> nth_error l i = Some a -> P a.
Proof.
  intros H Hn. apply (proj1 (Forall_forall P l) H). eapply nth_error_In. exact Hn.
Qed.

Lemma filter_snoc_length {A : Type} (f : A -> bool) (l : list A) (a : A) :
  length (filter f (l ++ [a])) = (length (filter f l) + (if f a then 1 else 0))%nat.
Proof.
  rewrite filter_app, length_app. cbn. destruct (f a); reflexivity.
Qed.

Lemma warnings_app (s : CommandSwitch) (t pre : list Effect) (w : World) :
  warnings {| self := s; trace := (t ++ pre)%list; world := w |} =
  (length (filter is_warning t) + length (filter is_warning pre))%nat.
Proof.
  unfold warnings. cbn [trace]. rewrite filter_app, length_app. reflexivity.
Qed.

Lemma QueryTask_inside (c : Coro unit) : QueryTask c -> inside_update c = true.
Proof. intros (X & job & k & -> & _). reflexivity. Qed.

Lemma CommitTask_inside (c : Coro unit) : CommitTask c -> inside_update c = true.
Proof. intros (X & job & k & -> & _). reflexivity. Qed.

Lemma SwitchTask_outside (c : Coro unit) :
  SwitchTask c -> inside_update c = false /\ inside_switch c = true.
Proof. intros (X & job & k & -> & _). split; reflexivity. Qed.

(** *** One call of the poll guard, seen from the loop *)

Lemma poll_outcome (ts : list (Coro unit)) (y : Sys) (c' : Coro unit) (y' : Sys) :
  Forall task_ok ts ->
  length (filter inside_update ts) = (if locked (self y) then 1 else 0)%nat ->
  (locked (self y) = true -> Py.truthy_opt (_command_state (self y)) = true) ->
  polled y c' y' ->
  loop_ok {| sys := y'; tasks := park c' ts |} /\
  warnings y' = (warnings y + (if locked (self y) then 1 else 0))%nat /\
  (locked (self y) = true ->
   park c' ts = ts /\
   y' = {| self := self y;
           trace := (trace y ++ [poll_warning (self y)])%list;
           world := world y |}).
Proof.
  intros Hts Hn Hc Hp. unfold polled in Hp. unfold loop_ok, updates_in_flight.
  destruct (locked (self y)) eqn:Hl.
  - destruct Hp as [-> ->]. cbn [park sys tasks self]. rewrite Hl.
    split; [|split].
    + split; [exact Hts|]. split; [exact Hn | exact Hc].
    + unfold warnings. cbn [trace]. rewrite filter_app, length_app. reflexivity.
    + intros _. split; reflexivity.
  - destruct (Py.truthy_opt (_command_state (self y))) eqn:Ht.
    + destruct Hp as [Hq ->].
      assert (Hi := QueryTask_inside c' Hq).
      assert (Hpark : park c' ts = (ts ++ [c'])%list).
      { destruct Hq as (X & job & k & -> & _). reflexivity. }
      rewrite Hpark. cbn [sys tasks self].
      rewrite filter_snoc_length, Hi, Hn.
      split; [|split].
      * split; [|split].
        -- apply Forall_app. split; [exact Hts|]. constructor; [|constructor].
           right. left. exact Hq.
        -- reflexivity.
        -- intros _. exact Ht.
      * unfold warnings. cbn [trace]. lia.
      * discriminate.
    + destruct Hp as [-> ->]. cbn [park sys tasks self].
      split; [|split].
      * split; [exact Hts|]. split; [exact Hn | discriminate].
      * unfold warnings. cbn [trace]. lia.
      * discriminate.
Qed.

Lemma in_flight_locked (l : Loop) :
  loop_ok l -> (0 <? updates_in_flight l)%nat = locked (self (sys l)).
Proof.
  intros (_ & Hn & _). rewrite Hn. destruct (locked (self (sys l))); reflexivity.
Qed.

(** *** One step of the loop *)

Lemma step_preserves (e : Event) (l : Loop) :
  loop_ok l ->
  loop_ok (step e l) /\
  warnings (sys (step e l)) = (warnings (sys l) + (if overrun e l then 1 else 0))%nat /\
  (overrun e l = true ->
   tasks (step e l) = others e l /\
   self (sys (step e l)) = self (sys l) /\
   exists pre,
     trace (sys (step e l)) = (trace (sys l) ++ pre ++ [poll_warning (self (sys l))])%list /\
     filter is_warning pre = []).
Proof.
  intros Hl. pose proof (in_flight_locked l Hl) as Hfl.
  destruct Hl as (Hts & Hn & Hc).
  assert (Hturn : forall on,
    loop_ok (start (turn on) l) /\
    warnings (sys (start (turn on) l)) = (warnings (sys l) + 0)%nat).
  { intros on. unfold start.
    destruct (switch_task_parked on (sys l)) as (c & -> & Hs).
    destruct (SwitchTask_outside c Hs) as [Hout _].
    assert (Hpark : park c (tasks l) = (tasks l ++ [c])%list).
    { destruct Hs as (X & job & k & -> & _). reflexivity. }
    rewrite Hpark. split.
    - unfold loop_ok, updates_in_flight. cbn [sys tasks self].
      rewrite filter_snoc_length, Hout, Nat.add_0_r.
      split; [|split; [exact Hn | exact Hc]].
      apply Forall_app. split; [exact Hts|]. constructor; [|constructor].
      left. exact Hs.
    - cbn [sys]. destruct (sys l) as [s t w]. rewrite warnings_app. reflexivity. }
  destruct e as [now | | | i]; unfold overrun; cbn [step poll_attempt others].
  - (* Tick *)
    destruct (async_added_to_hass (self (sys l))) as [z|].
    + cbn [andb]. rewrite Hfl. unfold start.
      pose proof (guard_advance (Some now) (sys l)) as Hp.
      destruct (advance (_update_entity_state (Some now)) (sys l)) as [c' y'].
      cbn [fst snd] in Hp.
      destruct (poll_outcome (tasks l) (sys l) c' y' Hts Hn Hc Hp) as (H1 & H2 & H3).
      split; [exact H1|]. split; [exact H2|].
      intros Hlk. destruct (H3 Hlk) as [Hpark ->]. cbn [sys tasks self trace].
      split; [exact Hpark|]. split; [reflexivity|]. exists []. split; reflexivity.
    + cbn [andb]. split; [repeat split; assumption|]. split; [lia | discriminate].
  - (* CallTurnOn *)
    cbn [andb]. destruct (Hturn true) as [H1 H2].
    split; [exact H1|]. split; [exact H2 | discriminate].
  - (* CallTurnOff *)
    cbn [andb]. destruct (Hturn false) as [H1 H2].
    split; [exact H1|]. split; [exact H2 | discriminate].
  - (* Done *)
    unfold resume. destruct (nth_error (tasks l) i) as [c|] eqn:Hi.
    2:{ cbn [andb]. split; [repeat split; assumption|]. split; [lia | discriminate]. }
    pose proof (remove_nth_filter inside_update (tasks l) i c Hi) as Hcount.
    pose proof (remove_nth_Forall task_ok (tasks l) i Hts) as Hrest.
    fold (updates_in_flight l) in Hcount.
    destruct (nth_error_Forall task_ok (tasks l) i c Hts Hi) as [Hs|[Hq|Hm]].
    + (* a task at line 176 *)
      destruct (SwitchTask_outside c Hs) as [Hout Hin]. rewrite Hin, Hout in *.
      cbn [andb]. rewrite Hfl.
      destruct Hs as (X & job & k & -> & Hjob & Hk).
      destruct (Hjob (sys l)) as (Hself & pre0 & Htr & Hw0).
      destruct (job (sys l)) as [x yj]. cbn [snd] in Hself, Htr.
      destruct (Hk x yj) as (c' & y' & s1 & pre & -> & Hs1 & Hw & Hp).
      assert (Hlock : locked s1 = locked (self (sys l))).
      { destruct Hs1 as [->|[_ [v ->]]]; rewrite Hself; reflexivity. }
      assert (Hcs : _command_state s1 = _command_state (self (sys l))).
      { destruct Hs1 as [->|[_ [v ->]]]; rewrite Hself; reflexivity. }
      rewrite Nat.add_0_r in Hcount.
      pose proof (poll_outcome (remove_nth i (tasks l))
                    {| self := s1; trace := (trace yj ++ pre)%list; world := world yj |}
                    c' y' Hrest) as Hpo.
      cbn [self trace world] in Hpo. rewrite Hlock, Hcs, <- Hcount in Hpo.
      destruct (Hpo Hn Hc Hp) as (H1 & H2 & H3). clear Hpo.
      split; [exact H1|]. cbn [sys tasks]. split.
      * rewrite H2, Htr, warnings_app, filter_app, length_app, Hw0, Hw.
        unfold warnings. cbn [length]. lia.
      * intros Hlk. destruct (H3 Hlk) as [Hpark ->]. cbn [self trace].
        split; [exact Hpark|].
        assert (Es : s1 = self (sys l)).
        { destruct Hs1 as [->|[Hf _]]; [exact Hself|].
          rewrite Hself, (Hc Hlk) in Hf. discriminate Hf. }
        split; [exact Es|]. exists (pre0 ++ pre)%list. split.
        -- rewrite Htr, Es. repeat rewrite <- app_assoc. reflexivity.
        -- rewrite filter_app, Hw0, Hw. reflexivity.
    + (* a task at line 231 *)
      rewrite (QueryTask_inside c Hq) in Hcount.
      assert (Hnot : inside_switch c = false).
      { destruct Hq as (X & job & k & -> & _). reflexivity. }
      rewrite Hnot. cbn [andb].
      assert (Hlk : locked (self (sys l)) = true).
      { destruct (locked (self (sys l))); [reflexivity | lia]. }
      destruct Hq as (X & job & k & -> & Hjob & Hk).
      destruct (Hjob (sys l)) as (Hself & pre0 & Htr & Hw0).
      destruct (job (sys l)) as [x yj]. cbn [snd] in Hself, Htr.
      destruct (Hk x yj) as (c' & v & payload & pre & -> & Hw & Hm).
      assert (Hpark : forall ts, park c' ts = (ts ++ [c'])%list).
      { destruct Hm as (X' & job' & k' & -> & _). reflexivity. }
      rewrite Hpark. split; [|split; [|discriminate]].
      * unfold loop_ok, updates_in_flight. cbn [sys tasks self].
        rewrite filter_snoc_length, (CommitTask_inside c' Hm).
        assert (El : locked (rerendered payload (with_is_on v (self yj))) = true)
          by (rewrite <- Hlk, <- Hself; reflexivity).
        rewrite El. split; [|split].
        -- apply Forall_app. split; [exact Hrest|]. constructor; [|constructor].
           right. right. exact Hm.
        -- rewrite Hn, Hlk in Hcount. lia.
        -- intros _. cbn [rerendered with_name with_is_on _command_state].
           rewrite Hself. exact (Hc Hlk).
      * cbn [sys]. rewrite Htr, <- app_assoc, warnings_app, filter_app, length_app, Hw0, Hw.
        unfold warnings. cbn [length]. lia.
    + (* a task at line 241 *)
      rewrite (CommitTask_inside c Hm) in Hcount.
      assert (Hnot : inside_switch c = false).
      { destruct Hm as (X & job & k & -> & _). reflexivity. }
      rewrite Hnot. cbn [andb].
      assert (Hlk : locked (self (sys l)) = true).
      { destruct (locked (self (sys l))); [reflexivity | lia]. }
      destruct Hm as (X & job & k & -> & Hjob & Hk).
      destruct (Hjob (sys l)) as (Hself & pre0 & Htr & Hw0).
      destruct (job (sys l)) as [x yj]. cbn [snd] in Hself, Htr.
      rewrite Hk. cbn [park]. split; [|split; [|discriminate]].
      * unfold loop_ok, updates_in_flight. cbn [sys tasks self].
        change (locked (with_process_updates (Some false) (self yj))) with false.
        split; [exact Hrest|]. split; [|discriminate].
        rewrite Hn, Hlk in Hcount. lia.
      * cbn [sys]. unfold warnings at 1. cbn [trace]. rewrite Htr, filter_app, length_app, Hw0.
        unfold warnings. cbn [length]. lia.
Qed.

(** A task that the loop runs alone, each of its jobs being done in turn,
    ends in the system that [run] computes: the two ways of running a
    coroutine agree. *)
Lemma loop_alone (c : Coro unit) (y : Sys) :
  exists n, run_events (repeat (Done 0) n) (start c (idle y)) = idle (exec c y).
Proof.
  revert y. induction c as [a | X m k IH | X pt job k IH]; intros y.
  - exists O. destruct a. reflexivity.
  - unfold start, exec in *. cbn [advance run idle sys tasks] in *.
    destruct (m y) as [x y']. apply IH.
  - unfold start, exec in *. cbn [advance run idle sys tasks park app] in *.
    destruct (job y) as [x y1] eqn:Hj.
    destruct (IH x y1) as [n Hn]. exists (S n).
    cbn [repeat]. unfold run_events in *. cbn [fold_left step].
    unfold resume. cbn [tasks nth_error sys remove_nth]. rewrite Hj.
    exact Hn.
Qed.

(** *** Any number of steps *)

Lemma run_events_ok (es : list Event) (l : Loop) :
  loop_ok l ->
  loop_ok (run_events es l) /\
  warnings (sys (run_events es l)) = (warnings (sys l) + overruns es l)%nat.
Proof.
  revert l. induction es as [|e r IH]; intros l Hl.
  - cbn. split; [exact Hl | lia].
  - destruct (step_preserves e l Hl) as (H1 & H2 & _).
    destruct (IH (step e l) H1) as [H3 H4].
    unfold run_events in *. cbn [fold_left overruns]. split; [exact H3|].
    rewrite H4, H2. lia.
Qed.

Lemma idle_ok (y : Sys) : locked (self y) = false -> loop_ok (idle y).
Proof.
  intros H. unfold loop_ok, idle, updates_in_flight. cbn [sys tasks]. rewrite H.
  split; [constructor|]. split; [reflexivity | discriminate].
Qed.

(** *** What never changes *)

Lemma same_configuration_refl (s : CommandSwitch) : same_configuration s s.
Proof.
  exists (_attr_is_on s), (_process_updates s), (name s).
  split; [destruct s; reflexivity | left; reflexivity].
Qed.

Lemma same_configuration_trans (s1 s2 s3 : CommandSwitch) :
  same_configuration s1 s2 -> same_configuration s2 s3 -> same_configuration s1 s3.
Proof.
  intros (v & l & n & -> & Hn) (v' & l' & n' & -> & Hn'). exists v', l', n'.
  split; [reflexivity|]. destruct Hn' as [->|[payload ->]].
  - exact Hn.
  - right. exists payload. reflexivity.
Qed.

Lemma same_configuration_is_on (v : option bool) (s : CommandSwitch) :
  same_configuration s (with_is_on v s).
Proof.
  exists v, (_process_updates s), (name s).
  split; [destruct s; reflexivity | left; reflexivity].
Qed.

Lemma same_configuration_lock (b : option bool) (s : CommandSwitch) :
  same_configuration s (with_process_updates b s).
Proof.
  exists (_attr_is_on s), b, (name s).
  split; [destruct s; reflexivity | left; reflexivity].
Qed.

Lemma same_configuration_rerendered (payload : string) (s : CommandSwitch) :
  same_configuration s (rerendered payload s).
Proof.
  exists (_attr_is_on s), (_process_updates s),
    (rendered_name (CONF_NAME (_config s)) payload).
  split; [destruct s; reflexivity | right; exists payload; reflexivity].
Qed.

(** What [same_configuration] keeps. *)
Lemma same_configuration_fields (s s' : CommandSwitch) :
  same_configuration s s' ->
  _config s' = _config s /\ entity_id s' = entity_id s /\
  _command_on s' = _command_on s /\ _command_off s' = _command_off s /\
  _command_state s' = _command_state s /\ _value_template s' = _value_template s /\
  _timeout s' = _timeout s /\ _scan_interval s' = _scan_interval s.
Proof.
  intros (v & l & n & -> & _). repeat split.
Qed.

Lemma polled_same_configuration (y : Sys) (c' : Coro unit) (y' : Sys) :
  polled y c' y' -> same_configuration (self y) (self y').
Proof.
  unfold polled. destruct (locked (self y)).
  - intros [_ ->]. apply same_configuration_refl.
  - destruct (Py.truthy_opt (_command_state (self y)));
      intros [_ ->]; apply same_configuration_lock.
Qed.

Lemma step_same_configuration (e : Event) (l : Loop) :
  loop_ok l -> same_configuration (self (sys l)) (self (sys (step e l))).
Proof.
  intros (Hts & _ & _).
  destruct e as [now | | | i]; cbn [step].
  - destruct (async_added_to_hass (self (sys l))); [|apply same_configuration_refl].
    unfold start. pose proof (guard_advance (Some now) (sys l)) as Hp.
    destruct (advance (_update_entity_state (Some now)) (sys l)) as [c' y'].
    exact (polled_same_configuration _ _ _ Hp).
  - unfold start. destruct (switch_task_parked true (sys l)) as (c & E & _).
    change async_turn_on with (turn true). rewrite E. apply same_configuration_refl.
  - unfold start. destruct (switch_task_parked false (sys l)) as (c & E & _).
    change async_turn_off with (turn false). rewrite E. apply same_configuration_refl.
  - unfold resume. destruct (nth_error (tasks l) i) as [c|] eqn:Hi;
      [|apply same_configuration_refl].
    destruct (nth_error_Forall task_ok (tasks l) i c Hts Hi) as [Hs|[Hq|Hm]].
    + destruct Hs as (X & job & k & -> & Hjob & Hk).
      destruct (Hjob (sys l)) as (Hself & _).
      destruct (job (sys l)) as [x yj]. cbn [snd] in Hself.
      destruct (Hk x yj) as (c' & y' & s1 & pre & -> & Hs1 & _ & Hp).
      apply polled_same_configuration in Hp. cbn [self sys] in *.
      rewrite <- Hself. eapply same_configuration_trans; [|exact Hp].
      destruct Hs1 as [->|[_ [v ->]]];
        [apply same_configuration_refl | apply same_configuration_is_on].
    + destruct Hq as (X & job & k & -> & Hjob & Hk).
      destruct (Hjob (sys l)) as (Hself & _).
      destruct (job (sys l)) as [x yj]. cbn [snd] in Hself.
      destruct (Hk x yj) as (c' & v & payload & pre & -> & _). cbn [sys self].
      rewrite <- Hself.
      eapply same_configuration_trans;
        [apply same_configuration_is_on | apply same_configuration_rerendered].
    + destruct Hm as (X & job & k & -> & Hjob & Hk).
      destruct (Hjob (sys l)) as (Hself & _).
      destruct (job (sys l)) as [x yj]. cbn [snd] in Hself.
      rewrite Hk. cbn [sys self]. rewrite <- Hself. apply same_configuration_lock.
Qed.

Lemma run_events_same_configuration (es : list Event) (l : Loop) :
  loop_ok l -> same_configuration (self (sys l)) (self (sys (run_events es l))).
Proof.
  revert l. induction es as [|e r IH]; intros l Hl.
  - apply same_configuration_refl.
  - unfold run_events in *. cbn [fold_left].
    eapply same_configuration_trans; [apply step_same_configuration; exact Hl|].
    apply IH. apply (step_preserves e l Hl).
Qed.

(** C3: from an entity whose lock is free, after any sequence of ticks,
    service calls and job completions, at most one task is inside
    [_async_update]; the number of warnings logged is the number of poll
    attempts (scheduled ticks, or polls at the end of turn_on / turn_off)
    that arrived while an update was in flight; and such an attempt leaves
    no task behind, leaves the entity as it is, and ends with exactly one
    warning, the record "Updating Command Line Switch %s took longer than
    the scheduled update interval %s" with the name that the entity
    reports at that time and the scan interval that it was built with.
    That name is the one the entity had at first, or one that its name
    template has rendered since. *)
Theorem poll_guard_exclusive (y0 : Sys) (es : list Event) :
  locked (self y0) = false ->
  let l := run_events es (idle y0) in
  (updates_in_flight l <= 1)%nat /\
  warnings (sys l) = (warnings y0 + overruns es (idle y0))%nat /\
  forall e, overrun e l = true ->
    tasks (step e l) = others e l /\
    updates_in_flight (step e l) = updates_in_flight l /\
    self (sys (step e l)) = self (sys l) /\
    warnings (sys (step e l)) = S (warnings (sys l)) /\
    (exists pre,
       trace (sys (step e l)) =
         (trace (sys l) ++ pre ++
          [Log WARNING
             "Updating Command Line Switch %s took longer than the scheduled update interval %s"
             [match name (self (sys l)) with Some n => AStr n | None => ANone end;
              ATimedelta (_scan_interval (self y0))]])%list /\
       filter is_warning pre = []) /\
    (name (self (sys l)) = name (self y0) \/
     exists payload,
       name (self (sys l)) = rendered_name (CONF_NAME (_config (self y0))) payload).
Proof.
  intros H0 l.
  destruct (run_events_ok es (idle y0) (idle_ok y0 H0)) as [Hl Hw]. fold l in Hl, Hw.
  pose proof (run_events_same_configuration es (idle y0) (idle_ok y0 H0)) as Hsame.
  fold l in Hsame. cbn [idle sys] in Hsame.
  split; [|split].
  - destruct Hl as (_ & Hn & _). rewrite Hn. destruct (locked (self (sys l))); lia.
  - exact Hw.
  - intros e He. destruct (step_preserves e l Hl) as (H1 & H2 & H3).
    destruct (H3 He) as (Ht & Hs & Hpre). rewrite He in H2.
    split; [exact Ht|]. split; [|split; [exact Hs|split; [lia|split]]].
    + destruct H1 as (_ & Hn1 & _). destruct Hl as (_ & Hn & _).
      rewrite Hn1, Hn, Hs. reflexivity.
    + unfold poll_warning in Hpre.
      destruct (same_configuration_fields _ _ Hsame) as (_ & _ & _ & _ & _ & _ & _ & Hi).
      rewrite Hi in Hpre. exact Hpre.
    + destruct Hsame as (v & b & n & E & Hn). rewrite E. exact Hn.
Qed.

Lemma poll_guard_exclusive_witness :
  let y0 := demo_sys (Some "cat /tmp/s") (Some true_template) 0 (Some "1") in
  let l := run_events [Tick 0; Tick 30; CallTurnOn; Done 1] (idle y0) in
  (updates_in_flight l <= 1)%nat /\
  warnings (sys l) = 2%nat /\
  last (trace (sys (step (Tick 30) (run_events [Tick 0] (idle y0))))) ScheduleUpdateHaState =
    Log WARNING
      "Updating Command Line Switch %s took longer than the scheduled update interval %s"
      [ANone; ATimedelta 30] /\
  last (trace (sys (step (Tick 90)
                      (run_events [Tick 0; Done 0; Done 0; Tick 60] (idle y0)))))
       ScheduleUpdateHaState =
    Log WARNING
      "Updating Command Line Switch %s took longer than the scheduled update interval %s"
      [AStr "Light 2"; ATimedelta 30].
Proof.
  intros y0 l.
  destruct (poll_guard_exclusive y0 [Tick 0; Tick 30; CallTurnOn; Done 1] eq_refl)
    as (H1 & H2 & _).
  split; [exact H1|]. split; [exact H2|]. split.
  - destruct (poll_guard_exclusive y0 [Tick 0] eq_refl) as (_ & _ & H).
    destruct (H (Tick 30) eq_refl) as (_ & _ & _ & _ & (pre & E & _) & _).
    rewrite E, !app_assoc. apply last_last.
  - destruct (poll_guard_exclusive y0 [Tick 0; Done 0; Done 0; Tick 60] eq_refl)
      as (_ & _ & H).
    destruct (H (Tick 90) eq_refl) as (_ & _ & _ & _ & (pre & E & _) & _).
    rewrite E, !app_assoc. apply last_last.
Defined.

(** ** More on the refresh *)

(** The state query reads the state command, the template (present or not)
    and the timeout of the entity, and the world: nothing else. *)
Lemma query_state_ext (y y' : Sys) :
  _command_state (self y) = _command_state (self y') ->
  _value_template (self y) = _value_template (self y') ->
  _timeout (self y) = _timeout (self y') ->
  world y = world y' ->
  fst (_query_state y) = fst (_query_state y').
Proof.
  intros Hc Hv Ht Hw.
  unfold _query_state, _query_state_value, _query_state_code. sync.
  rewrite <- Hc, <- Hv.
  destruct (_command_state (self y)) as [c|]; [|reflexivity].
  destruct (Py.truthy c); [|reflexivity].
  destruct (_value_template (self y)); cbn [fst]; rewrite Ht, Hw; reflexivity.
Qed.

Lemma async_update_is_on_ext (y y' : Sys) :
  _command_state (self y) = _command_state (self y') ->
  _value_template (self y) = _value_template (self y') ->
  _timeout (self y) = _timeout (self y') ->
  world y = world y' ->
  Py.truthy_opt (_command_state (self y)) = true ->
  is_on (self (exec _async_update y)) = is_on (self (exec _async_update y')).
Proof.
  intros Hc Hv Ht Hw Htr.
  destruct (_command_state (self y)) as [c|] eqn:E; [|discriminate Htr].
  cbn [Py.truthy_opt] in Htr.
  rewrite (async_update_self y c E Htr), (async_update_self y' c (eq_sym Hc) Htr).
  unfold is_on, state_payload, rendered_value. cbn [with_is_on _attr_is_on].
  rewrite (query_state_ext y y' (eq_trans E Hc) Hv Ht Hw), Hv. reflexivity.
Qed.

(** X1: with a state command, the state that a refresh leaves does not
    depend on the state before it; and a second refresh that finds the same
    payload leaves the same state as the first. *)
Theorem refresh_overwrites_and_repeats (y : Sys) :
  Py.truthy_opt (_command_state (self y)) = true ->
  (forall v, is_on (self (exec _async_update
                            {| self := with_is_on v (self y);
                               trace := trace y;
                               world := world y |}))
             = is_on (self (exec _async_update y))) /\
  (state_payload (exec _async_update y) = state_payload y ->
   is_on (self (exec _async_update (exec _async_update y)))
   = is_on (self (exec _async_update y))).
Proof.
  intros Ht. split.
  - intros v. symmetry. apply async_update_is_on_ext; try reflexivity. exact Ht.
  - intros Hp.
    destruct (_command_state (self y)) as [c|] eqn:E; [|discriminate Ht].
    cbn [Py.truthy_opt] in Ht.
    assert (Hs := async_update_self y c E Ht).
    assert (E' : _command_state (self (exec _async_update y)) = Some c).
    { rewrite Hs. exact E. }
    rewrite (async_update_self (exec _async_update y) c E' Ht), Hp.
    rewrite Hs. reflexivity.
Qed.

Lemma refresh_overwrites_and_repeats_witness :
  is_on (self (exec _async_update
                 (exec _async_update
                    (demo_sys (Some "cat /tmp/s") (Some failing_template) 0 (Some "true")))))
  = Some true.
Proof.
  exact (eq_trans
           (proj2 (refresh_overwrites_and_repeats
                     (demo_sys (Some "cat /tmp/s") (Some failing_template) 0 (Some "true"))
                     eq_refl) eq_refl)
           eq_refl).
Defined.

(** X2: with a state command, a refresh leaves the state Unknown exactly
    when the payload is the empty text and the template renders nothing
    usable.  A state command whose output could not be captured, or a
    refresh without a template, never leaves Unknown: the payload is then
    the text None, True or False. *)
Theorem unknown_only_without_signal (y : Sys) (c : string) :
  _command_state (self y) = Some c -> Py.truthy c = true ->
  (is_on (self (exec _async_update y)) = None <->
   state_payload y = "" /\
   Py.truthy_opt (rendered_value (self y) (state_payload y)) = false) /\
  (state_command_stdout y = None \/ _value_template (self y) = None ->
   is_on (self (exec _async_update y)) <> None).
Proof.
  intros Hc Ht.
  assert (Hiff : is_on (self (exec _async_update y)) = None <->
                 state_payload y = "" /\
                 Py.truthy_opt (rendered_value (self y) (state_payload y)) = false).
  { rewrite (async_update_self y c Hc Ht). unfold is_on, interpret.
    cbn [with_is_on _attr_is_on].
    destruct (state_payload y) as [|a r]; cbn [Py.truthy orb].
    - destruct (Py.truthy_opt _); split; intros H;
        try discriminate H; try (split; reflexivity).
      destruct H as [_ H]. discriminate H.
    - split; intros H; [discriminate H | destruct H as [H _]; discriminate H]. }
  split; [exact Hiff|].
  intros H Hn. apply Hiff in Hn. destruct Hn as [Hp _].
  destruct (_value_template (self y)) as [t|] eqn:Hv.
  - destruct H as [H|H]; [|discriminate H].
    rewrite (state_payload_value y c t Hc Ht Hv), H in Hp. discriminate Hp.
  - unfold state_payload in Hp. rewrite (query_state_code_run y c Hc Ht Hv) in Hp.
    cbn [fst] in Hp.
    destruct (exit_code (world y) (clock (world y)) c (_timeout (self y)) =? 0);
      discriminate Hp.
Qed.

Lemma unknown_only_without_signal_witness :
  is_on (self (exec _async_update
                 (demo_sys (Some "cat /missing") (Some failing_template) 1 None)))
  <> None.
Proof.
  exact (proj2 (unknown_only_without_signal
                  (demo_sys (Some "cat /missing") (Some failing_template) 1 None)
                  "cat /missing" eq_refl eq_refl) (or_introl eq_refl)).
Defined.

(** ** More on the guard and the actions, run alone *)

(** X3: after [_update_entity_state], run alone, the lock exists, and it is
    held only if it was held before the call: a poll that ran has released
    it, a poll that was dropped has not touched it. *)
Theorem guard_leaves_lock_as_found (now : option Z) (y : Sys) :
  _process_updates (self (exec (_update_entity_state now) y)) = Some (locked (self y)).
Proof.
  unfold exec. rewrite update_entity_state_run.
  destruct (locked (self y)) eqn:Hl; cbn [snd self].
  - unfold locked in Hl. destruct (_process_updates (self y)) as [b|];
      [rewrite Hl; reflexivity | discriminate Hl].
  - reflexivity.
Qed.

(** X4: with a state command and a free lock, the state after turn_on or
    turn_off is the state that a refresh finds once the command has run: the
    exit code of the command and the direction of the action play no part
    in it. *)
Theorem turn_with_state_command_reports_query (on : bool) (y : Sys) :
  Py.truthy_opt (_command_state (self y)) = true ->
  locked (self y) = false ->
  is_on (self (exec (turn on) y)) =
  is_on (self (exec _async_update
                 {| self := self y; trace := trace y; world := tick (world y) |})).
Proof.
  intros Ht Hl. unfold exec at 1. rewrite turn_run. cbv zeta. rewrite Ht.
  rewrite andb_false_r. rewrite update_entity_state_run. cbn [self]. rewrite Hl.
  cbv zeta. cbn [snd self]. unfold is_on at 1. cbn [with_process_updates _attr_is_on].
  apply async_update_is_on_ext; try reflexivity. exact Ht.
Qed.

Lemma turn_with_state_command_reports_query_witness :
  is_on (self (exec async_turn_on (demo_sys (Some "test -f /tmp/s") None 0 None)))
  = Some true /\
  is_on (self (exec async_turn_off (demo_sys (Some "test -f /tmp/s") None 0 None)))
  = Some true.
Proof.
  split.
  - exact (eq_trans
             (turn_with_state_command_reports_query true
                (demo_sys (Some "test -f /tmp/s") None 0 None) eq_refl eq_refl)
             eq_refl).
  - exact (eq_trans
             (turn_with_state_command_reports_query false
                (demo_sys (Some "test -f /tmp/s") None 0 None) eq_refl eq_refl)
             eq_refl).
Defined.

(** X5: a state command that is the empty text counts as no state command
    wherever it is tested for truth, although [assumed_state] is False: no
    poll is scheduled, a refresh does nothing, and an action whose command
    succeeds sets the state. *)
Theorem empty_state_command_is_optimistic (on : bool) (y : Sys) :
  _command_state (self y) = Some "" ->
  assumed_state (self y) = false /\
  async_added_to_hass (self y) = None /\
  run _async_update y = (tt, y) /\
  (exit_code (world y) (clock (world y)) (command_of on (self y)) (_timeout (self y)) = 0 ->
   is_on (self (exec (turn on) y)) = Some on).
Proof.
  intros Hc.
  assert (Hf : Py.truthy_opt (_command_state (self y)) = false) by (rewrite Hc; reflexivity).
  split; [unfold assumed_state; rewrite Hc; reflexivity|].
  split; [unfold async_added_to_hass; rewrite Hf; reflexivity|].
  split; [apply async_update_skip; exact Hf|].
  intros Hrc. unfold exec. rewrite turn_run. cbv zeta. rewrite Hrc, Hf.
  cbn [Z.eqb andb negb].
  refine (eq_trans (update_entity_state_assumed None _ _) _); [|reflexivity].
  cbn [self with_is_on _command_state]. exact Hf.
Qed.

Lemma empty_state_command_is_optimistic_witness :
  is_on (self (exec async_turn_on (demo_sys (Some "") None 0 None))) = Some true.
Proof.
  exact (proj2 (proj2 (proj2 (empty_state_command_is_optimistic true
                                (demo_sys (Some "") None 0 None) eq_refl))) eq_refl).
Defined.

(** The number of helper calls of a refresh. *)
Lemma async_update_clock (y : Sys) :
  clock (world (exec _async_update y)) =
  (clock (world y) + (if Py.truthy_opt (_command_state (self y)) then 1 else 0))%nat.
Proof.
  destruct (_command_state (self y)) as [c|] eqn:Hc.
  - cbn [Py.truthy_opt]. destruct (Py.truthy c) eqn:Ht.
    + destruct (_value_template (self y)) as [t|] eqn:Hv.
      * rewrite (async_update_value_mode y c t Hc Ht Hv). cbn [world tick clock]. lia.
      * rewrite (async_update_code_mode y c Hc Ht Hv). cbn [world tick clock]. lia.
    + unfold exec. rewrite async_update_skip; [cbn [snd]; lia|].
      rewrite Hc. exact Ht.
  - unfold exec. rewrite async_update_skip; [cbn [snd Py.truthy_opt]; lia|].
    rewrite Hc. reflexivity.
Qed.

(** X6: a poll runs one command if there is a state command and the lock
    is free, none otherwise; turn_on or turn_off runs its own command once,
    and then whatever its poll runs.  (The clock of the world counts the
    calls of the process helpers.) *)
Theorem commands_run_once (on : bool) (now : option Z) (y : Sys) :
  let polls := if Py.truthy_opt (_command_state (self y)) && negb (locked (self y))
               then 1%nat else 0%nat in
  clock (world (exec (_update_entity_state now) y)) = (clock (world y) + polls)%nat /\
  clock (world (exec (turn on) y)) = (clock (world y) + 1 + polls)%nat.
Proof.
  cbv zeta.
  assert (G : forall now0 y0,
    clock (world (exec (_update_entity_state now0) y0)) =
    (clock (world y0) +
     (if Py.truthy_opt (_command_state (self y0)) && negb (locked (self y0))
      then 1 else 0))%nat).
  { intros now0 y0. unfold exec. rewrite update_entity_state_run.
    destruct (locked (self y0)); cbn [snd world negb].
    - rewrite andb_false_r. lia.
    - cbv zeta. cbn [world]. rewrite async_update_clock. cbn [self world
        with_process_updates _command_state]. rewrite andb_true_r. reflexivity. }
  split; [apply G|].
  unfold exec at 1. rewrite turn_run. cbv zeta.
  match goal with |- clock (world (snd (run _ ?Y))) = _ =>
    change (clock (world (exec (_update_entity_state None) Y)) =
            (clock (world y) + 1 +
             (if Py.truthy_opt (_command_state (self y)) && negb (locked (self y))
              then 1 else 0))%nat);
    rewrite (G None Y) end.
  cbn [self world tick clock].
  destruct (exit_code (world y) (clock (world y)) (command_of on (self y))
              (_timeout (self y)) =? 0);
    destruct (Py.truthy_opt (_command_state (self y))) eqn:Ht;
    cbn [andb negb]; try rewrite Ht; cbn [with_is_on _command_state];
    try rewrite Ht; unfold locked; cbn [with_is_on _process_updates andb];
    destruct (negb match _process_updates (self y) with Some b => b | None => false end);
    lia.
Qed.

(** ** The entity over time *)

(** X7: whatever the event loop does, in any order, the trigger
    configuration, entity id, commands, template, timeout and scan interval
    of the entity stay as they were: only the state, the lock and the name
    ever change, and the name is the one the entity had at first or one
    that its name template has rendered.  It is the latter, for the payload
    of the refresh, when a refresh has just run to its end. *)
Theorem configuration_never_changes (y0 : Sys) (es : list Event) :
  locked (self y0) = false ->
  let s0 := self y0 in
  let s := self (sys (run_events es (idle y0))) in
  (_config s = _config s0 /\ entity_id s = entity_id s0 /\
   _command_on s = _command_on s0 /\ _command_off s = _command_off s0 /\
   _command_state s = _command_state s0 /\ _value_template s = _value_template s0 /\
   _timeout s = _timeout s0 /\ _scan_interval s = _scan_interval s0) /\
  (name s = name s0 \/
   exists payload, name s = rendered_name (CONF_NAME (_config s0)) payload) /\
  (Py.truthy_opt (_command_state s0) = true ->
   name (self (exec _async_update y0)) =
   rendered_name (CONF_NAME (_config s0)) (state_payload y0)).
Proof.
  intros H0. cbv zeta.
  pose proof (run_events_same_configuration es (idle y0) (idle_ok y0 H0)) as H.
  cbn [idle sys] in H. split; [|split].
  - exact (same_configuration_fields _ _ H).
  - destruct H as (v & l & n & -> & Hn). exact Hn.
  - intros Ht. destruct (_command_state (self y0)) as [c|] eqn:Hc; [|discriminate Ht].
    rewrite (async_update_self y0 c Hc Ht). reflexivity.
Qed.

Lemma configuration_never_changes_witness :
  let s := self (sys (run_events [Tick 0; CallTurnOff; Done 0; Done 0; Done 0]
                        (idle (demo_sys (Some "cat /tmp/s") (Some true_template) 0
                                 (Some "1"))))) in
  _command_state s = Some "cat /tmp/s" /\
  (name s = None \/ exists payload, name s = rendered_name light_name payload) /\
  name s = Some "Light 2".
Proof.
  intros s.
  destruct (configuration_never_changes
              (demo_sys (Some "cat /tmp/s") (Some true_template) 0 (Some "1"))
              [Tick 0; CallTurnOff; Done 0; Done 0; Done 0] eq_refl)
    as ((_ & _ & _ & _ & Hc & _) & Hn & _).
  split; [exact Hc|]. split; [exact Hn | reflexivity].
Defined.

(** X8: in every state that the event loop can reach, the lock is held
    exactly when one task waits inside [_async_update]; when no task waits,
    the lock is free. *)
Theorem lock_held_only_during_update (y0 : Sys) (es : list Event) :
  locked (self y0) = false ->
  let l := run_events es (idle y0) in
  (locked (self (sys l)) = true <-> updates_in_flight l = 1%nat) /\
  (locked (self (sys l)) = false <-> updates_in_flight l = 0%nat) /\
  (tasks l = [] -> locked (self (sys l)) = false).
Proof.
  intros H0 l.
  destruct (run_events_ok es (idle y0) (idle_ok y0 H0)) as [(_ & Hn & _) _].
  fold l in Hn. unfold updates_in_flight in *.
  destruct (locked (self (sys l))); rewrite Hn; repeat split; intros H;
    try reflexivity; try discriminate H.
  rewrite H in Hn. discriminate Hn.
Qed.

Lemma lock_held_only_during_update_witness :
  locked (self (sys (run_events [Tick 0; Done 0; Done 0]
                       (idle (demo_sys (Some "cat /tmp/s") None 0 None))))) = false.
Proof.
  exact (proj2 (proj2 (lock_held_only_during_update
                         (demo_sys (Some "cat /tmp/s") None 0 None)
                         [Tick 0; Done 0; Done 0] eq_refl)) eq_refl).
Defined.

Lemma no_state_command_steps (es : list Event) (l : Loop) :
  loop_ok l ->
  Py.truthy_opt (_command_state (self (sys l))) = false ->
  overruns es l = O.
Proof.
  revert l. induction es as [|e r IH]; intros l Hl Hf; [reflexivity|].
  cbn [overruns].
  assert (Hu : updates_in_flight l = O).
  { destruct Hl as (_ & Hn & Hc). rewrite Hn.
    destruct (locked (self (sys l))); [|reflexivity].
    rewrite (Hc eq_refl) in Hf. discriminate Hf. }
  unfold overrun. rewrite Hu. cbn [Nat.ltb Nat.leb]. rewrite andb_false_r.
  rewrite IH; [reflexivity | apply (step_preserves e l Hl) |].
  rewrite (proj1 (proj2 (proj2 (proj2 (proj2
            (same_configuration_fields _ _ (step_same_configuration e l Hl))))))).
  exact Hf.
Qed.

(** X9: an entity without a state command never has an update in flight,
    never holds its lock between events, and never logs the warning of an
    overrun, whatever the event loop does. *)
Theorem no_state_command_no_warning (y0 : Sys) (es : list Event) :
  Py.truthy_opt (_command_state (self y0)) = false ->
  locked (self y0) = false ->
  let l := run_events es (idle y0) in
  updates_in_flight l = O /\
  locked (self (sys l)) = false /\
  warnings (sys l) = warnings y0 /\
  forall e, overrun e l = false.
Proof.
  intros Hf H0 l.
  destruct (run_events_ok es (idle y0) (idle_ok y0 H0)) as [Hl Hw]. fold l in Hl, Hw.
  pose proof (same_configuration_fields _ _
                (run_events_same_configuration es (idle y0) (idle_ok y0 H0)))
    as (_ & _ & _ & _ & E & _).
  fold l in E. cbn [idle sys] in E.
  assert (Hf' : Py.truthy_opt (_command_state (self (sys l))) = false).
  { rewrite E. exact Hf. }
  assert (Hlk : locked (self (sys l)) = false).
  { destruct Hl as (_ & _ & Hc). destruct (locked (self (sys l))); [|reflexivity].
    rewrite (Hc eq_refl) in Hf'. discriminate Hf'. }
  assert (Hu : updates_in_flight l = O).
  { destruct Hl as (_ & Hn & _). rewrite Hn, Hlk. reflexivity. }
  split; [exact Hu|]. split; [exact Hlk|]. split.
  - rewrite Hw, (no_state_command_steps es (idle y0) (idle_ok y0 H0) Hf).
    cbn [idle sys]. lia.
  - intros e. unfold overrun. rewrite Hu. apply andb_false_r.
Qed.

Lemma no_state_command_no_warning_witness :
  warnings (sys (run_events [CallTurnOn; CallTurnOff; Done 1; Done 0]
                   (idle (demo_sys None None 0 None)))) = O.
Proof.
  exact (proj1 (proj2 (proj2 (no_state_command_no_warning (demo_sys None None 0 None)
                                [CallTurnOn; CallTurnOff; Done 1; Done 0]
                                eq_refl eq_refl)))).
Defined.

(** *** Every task ends *)

Lemma pending_park (c : Coro unit) (ts : list (Coro unit)) :
  fold_right (fun c n => (awaits_left c + n)%nat) O (park c ts) =
  (fold_right (fun c n => (awaits_left c + n)%nat) O ts + awaits_left c)%nat.
Proof.
  assert (H : forall ts' : list (Coro unit),
    fold_right (fun c n => (awaits_left c + n)%nat) O (ts' ++ [c]) =
    (fold_right (fun c n => (awaits_left c + n)%nat) O ts' + awaits_left c)%nat).
  { induction ts' as [|a r IH]; cbn [app fold_right]; [lia | rewrite IH; lia]. }
  destruct c as [[] | X m k | X pt job k]; cbn [park]; try apply H.
  cbn [awaits_left]. lia.
Qed.

Lemma QueryTask_awaits (c : Coro unit) : QueryTask c -> awaits_left c = 2%nat.
Proof. intros (X & job & k & -> & _). reflexivity. Qed.

Lemma CommitTask_awaits (c : Coro unit) : CommitTask c -> awaits_left c = 1%nat.
Proof. intros (X & job & k & -> & _). reflexivity. Qed.

Lemma polled_awaits (y : Sys) (c' : Coro unit) (y' : Sys) :
  polled y c' y' -> (awaits_left c' <= 2)%nat.
Proof.
  unfold polled. destruct (locked (self y)); [intros [-> _]; cbn; lia|].
  destruct (Py.truthy_opt (_command_state (self y))).
  - intros [Hq _]. rewrite (QueryTask_awaits c' Hq). lia.
  - intros [-> _]. cbn. lia.
Qed.

(** When the job of the first waiting task is done, less is left to wait
    for. *)
Lemma first_done (l : Loop) (c : Coro unit) (r : list (Coro unit)) :
  loop_ok l -> tasks l = c :: r ->
  (pending (step (Done 0) l) < pending l)%nat.
Proof.
  intros (Hts & _ & _) Ht. unfold pending. cbn [step]. unfold resume.
  rewrite Ht in *. cbn [nth_error remove_nth fold_right].
  inversion Hts as [|c0 r0 Hc Hr]; subst.
  destruct Hc as [Hs|[Hq|Hm]].
  - destruct Hs as (X & job & k & -> & _ & Hk).
    destruct (job (sys l)) as [x yj].
    destruct (Hk x yj) as (c' & y' & s1 & pre & -> & _ & _ & Hp).
    cbn [tasks awaits_left]. rewrite pending_park.
    pose proof (polled_awaits _ _ _ Hp). lia.
  - destruct Hq as (X & job & k & -> & _ & Hk).
    destruct (job (sys l)) as [x yj].
    destruct (Hk x yj) as (c' & v & payload & pre & -> & _ & Hm).
    cbn [tasks awaits_left]. rewrite pending_park, (CommitTask_awaits c' Hm). lia.
  - destruct Hm as (X & job & k & -> & _ & Hk).
    destruct (job (sys l)) as [x yj]. rewrite Hk.
    cbn [tasks awaits_left park]. lia.
Qed.

Lemma drains (n : nat) (l : Loop) :
  loop_ok l -> (pending l <= n)%nat ->
  exists m, (m <= n)%nat /\ tasks (run_events (repeat (Done 0) m) l) = [].
Proof.
  revert l. induction n as [|n IH]; intros l Hl Hn.
  - exists O. split; [lia|]. cbn. destruct (tasks l) as [|c r] eqn:Ht; [reflexivity|].
    exfalso. unfold pending in Hn. rewrite Ht in Hn. cbn [fold_right] in Hn.
    destruct Hl as (Hts & _). rewrite Ht in Hts. inversion Hts as [|c0 r0 Hc Hr]; subst.
    destruct Hc as [H|[H|H]]; destruct H as (X & job & k & -> & _);
      cbn [awaits_left] in Hn; lia.
  - destruct (tasks l) as [|c r] eqn:Ht.
    + exists O. split; [lia | exact Ht].
    + pose proof (first_done l c r Hl Ht) as Hlt.
      destruct (IH (step (Done 0) l) (proj1 (step_preserves (Done 0) l Hl))) as (m & Hm & E);
        [lia|].
      exists (S m). split; [lia|]. exact E.
Qed.

(** X10: from every state that the event loop can reach, once the jobs
    that are awaited get done (at most three per waiting task), no task is
    left waiting and the lock is free: no poll is blocked for ever. *)
Theorem every_task_ends (y0 : Sys) (es : list Event) :
  locked (self y0) = false ->
  let l := run_events es (idle y0) in
  exists m, (m <= 3 * length (tasks l))%nat /\
    let l' := run_events (repeat (Done 0) m) l in
    tasks l' = [] /\ locked (self (sys l')) = false.
Proof.
  intros H0 l.
  destruct (run_events_ok es (idle y0) (idle_ok y0 H0)) as [Hl _]. fold l in Hl.
  assert (Hb : (pending l <= 3 * length (tasks l))%nat).
  { unfold pending. destruct Hl as (Hts & _).
    induction Hts as [|c r Hc Hr IH]; cbn [fold_right length]; [lia|].
    assert (awaits_left c <= 3)%nat.
    { destruct Hc as [H|[H|H]]; destruct H as (X & job & k & -> & _); cbn; lia. }
    lia. }
  destruct (drains _ l Hl Hb) as (m & Hm & E).
  exists m. split; [exact Hm|]. cbv zeta. split; [exact E|].
  destruct (run_events_ok (repeat (Done 0) m) l Hl) as [(_ & Hn & _) _].
  unfold updates_in_flight in Hn. rewrite E in Hn. cbn in Hn.
  destruct (locked (self (sys (run_events (repeat (Done 0) m) l))));
    [discriminate Hn | reflexivity].
Qed.

Lemma every_task_ends_witness :
  exists m, (m <= 3 * 2)%nat /\
    tasks (run_events (repeat (Done 0) m)
             (run_events [Tick 0; CallTurnOn]
                (idle (demo_sys (Some "cat /tmp/s") None 0 None)))) = [].
Proof.
  destruct (every_task_ends (demo_sys (Some "cat /tmp/s") None 0 None)
              [Tick 0; CallTurnOn] eq_refl) as (m & Hm & E & _).
  exists m. split; [exact Hm | exact E].
Defined.

(** ** Setting up the platform *)

Lemma backward_compatibility_complete (d : Conf.t) :
  Conf.complete (backward_compatibility d) = Conf.complete d.
Proof.
  unfold backward_compatibility, Conf.complete.
  destruct (Conf.CONF_FRIENDLY_NAME d) as [n|]; [destruct (Py.truthy n)|];
    cbn [Conf.set_name Conf.CONF_ICON_TEMPLATE];
    destruct (Conf.CONF_ICON_TEMPLATE d); reflexivity.
Qed.

Lemma make_switch_complete (name_template : string -> NameTemplate)
    (object_id : string) (d : Conf.t) :
  Conf.complete d = true -> exists s, make_switch name_template object_id d = inl s.
Proof.
  unfold Conf.complete, make_switch.
  destruct (Conf.CONF_COMMAND_ON d); [|discriminate].
  destruct (Conf.CONF_COMMAND_OFF d); [|discriminate].
  destruct (Conf.CONF_COMMAND_TIMEOUT d); [|discriminate].
  intros _. eexists. reflexivity.
Qed.

Lemma make_switch_incomplete (name_template : string -> NameTemplate)
    (object_id : string) (d : Conf.t) :
  Conf.complete d = false -> exists k, make_switch name_template object_id d = inr k.
Proof.
  unfold Conf.complete, make_switch.
  destruct (Conf.CONF_COMMAND_ON d); [|intros _; eexists; reflexivity].
  destruct (Conf.CONF_COMMAND_OFF d); [|intros _; eexists; reflexivity].
  destruct (Conf.CONF_COMMAND_TIMEOUT d); [discriminate|intros _; eexists; reflexivity].
Qed.

(** A switch as it is built: Off, without a lock, named after its object
    id. *)
Lemma make_switch_fresh (name_template : string -> NameTemplate)
    (object_id : string) (d : Conf.t) (s : CommandSwitch) :
  make_switch name_template object_id d = inl s ->
  is_on s = Some false /\ _process_updates s = None /\
  entity_id s = ENTITY_ID_FORMAT object_id.
Proof.
  unfold make_switch.
  destruct (Conf.CONF_COMMAND_ON d); [|discriminate].
  destruct (Conf.CONF_COMMAND_OFF d); [|discriminate].
  destruct (Conf.CONF_COMMAND_TIMEOUT d); [|discriminate].
  intros H. injection H as <-. repeat split.
Qed.

Lemma make_switches_complete (name_template : string -> NameTemplate)
    (entities : list (string * Conf.t)) (acc : list CommandSwitch) :
  Forall (fun e => Conf.complete (snd e) = true) entities ->
  exists built,
    make_switches name_template entities acc =
      (map (fun e => (fst e, backward_compatibility (snd e))) entities,
       inl (acc ++ built)%list) /\
    map inl built =
      map (fun e => make_switch name_template (fst e) (backward_compatibility (snd e))) entities.
Proof.
  intros H. revert acc. induction H as [|[oid d] r Hd Hr IH]; intros acc.
  - exists []. rewrite app_nil_r. split; reflexivity.
  - cbn [make_switches map fst snd] in *.
    destruct (make_switch_complete name_template oid (backward_compatibility d)) as [s Hs].
    { rewrite backward_compatibility_complete. exact Hd. }
    rewrite Hs. destruct (IH (acc ++ [s])%list) as (built & E & Hm).
    rewrite E. exists (s :: built). rewrite <- app_assoc. split; [reflexivity|].
    cbn [map]. rewrite Hm. reflexivity.
Qed.

Lemma make_switches_incomplete (name_template : string -> NameTemplate)
    (entities : list (string * Conf.t)) (acc : list CommandSwitch) :
  Exists (fun e => Conf.complete (snd e) = false) entities ->
  exists k, snd (make_switches name_template entities acc) = inr k.
Proof.
  revert acc. induction entities as [|[oid d] r IH]; intros acc H.
  - inversion H.
  - cbn [make_switches].
    destruct (Conf.complete d) eqn:Hd.
    + destruct (make_switch_complete name_template oid (backward_compatibility d)) as [s Hs].
      { rewrite backward_compatibility_complete. exact Hd. }
      rewrite Hs. inversion H as [e l He|e l He]; subst.
      * cbn [snd] in He. rewrite Hd in He. discriminate He.
      * destruct (IH (acc ++ [s])%list He) as [k Hk].
        destruct (make_switches name_template r (acc ++ [s])) as [r' res]. cbn [snd] in *.
        exists k. exact Hk.
    + destruct (make_switch_incomplete name_template oid (backward_compatibility d)) as [k Hk].
      { rewrite backward_compatibility_complete. exact Hd. }
      rewrite Hk. exists k. reflexivity.
Qed.

Lemma complete_or_not (entities : list (string * Conf.t)) :
  Forall (fun e => Conf.complete (snd e) = true) entities \/
  Exists (fun e => Conf.complete (snd e) = false) entities.
Proof.
  induction entities as [|e r [IH|IH]].
  - left. constructor.
  - destruct (Conf.complete (snd e)) eqn:He.
    + left. constructor; assumption.
    + right. constructor. exact He.
  - right. apply Exists_cons_tl. exact IH.
Qed.

Lemma add_switches_complete (name_template : string -> NameTemplate) (before : list PlatformEffect)
    (entities : list (string * Conf.t)) :
  entities <> [] ->
  Forall (fun e => Conf.complete (snd e) = true) entities ->
  exists switches,
    add_switches name_template before entities =
      {| effects := (before ++ [AddEntities switches])%list;
         entities_after := map (fun e => (fst e, backward_compatibility (snd e))) entities;
         outcome := Returned |} /\
    map inl switches =
      map (fun e => make_switch name_template (fst e) (backward_compatibility (snd e))) entities.
Proof.
  intros Hne Hall. unfold add_switches.
  destruct (make_switches_complete name_template entities [] Hall) as (built & E & Hm).
  rewrite E. cbn [app]. exists built. split; [|exact Hm].
  destruct built as [|s r]; [|reflexivity].
  destruct entities; [contradiction Hne; reflexivity | discriminate Hm].
Qed.

Lemma add_switches_incomplete (name_template : string -> NameTemplate)
    (before : list PlatformEffect)
    (entities : list (string * Conf.t)) :
  Exists (fun e => Conf.complete (snd e) = false) entities ->
  effects (add_switches name_template before entities) = before /\
  exists k, outcome (add_switches name_template before entities) = KeyError k.
Proof.
  intros H. unfold add_switches.
  destruct (make_switches_incomplete name_template entities [] H) as [k Hk].
  destruct (make_switches name_template entities []) as [ents r]. cbn [snd] in Hk. subst r.
  split; [reflexivity | exists k; reflexivity].
Qed.

Lemma built_switches_fresh (name_template : string -> NameTemplate)
    (entities : list (string * Conf.t)) (switches : list CommandSwitch) :
  map inl switches =
    map (fun e => make_switch name_template (fst e) (backward_compatibility (snd e))) entities ->
  map entity_id switches = map (fun e => ENTITY_ID_FORMAT (fst e)) entities /\
  Forall (fun s => is_on s = Some false /\ _process_updates s = None) switches.
Proof.
  revert switches. induction entities as [|e r IH]; intros [|s ss] H;
    cbn [map] in H; try discriminate H.
  - split; constructor.
  - injection H as Hs Hr. destruct (IH ss Hr) as [H1 H2].
    destruct (make_switch_fresh name_template _ _ _ (eq_sym Hs)) as (Ha & Hb & Hc).
    split; [cbn [map]; rewrite Hc, H1; reflexivity|].
    constructor; [split; assumption | exact H2].
Qed.

(** What decides between discovery and the YAML configuration. *)
Lemma setup_without_discovery (name_template : string -> NameTemplate)
    (slugify : string -> string) (DOMAIN SWITCH_DOMAIN : string)
    (config : PlatformConfig) (discovery_info : option Conf.t) :
  discovered discovery_info = false ->
  async_setup_platform name_template slugify DOMAIN SWITCH_DOMAIN config discovery_info =
  yaml_switches name_template DOMAIN SWITCH_DOMAIN config.
Proof.
  unfold discovered, async_setup_platform.
  destruct discovery_info as [info|]; [|reflexivity].
  destruct (Conf.truthy info); [discriminate | reflexivity].
Qed.

(** X11: without discovery, when every device configuration has its on and
    off commands and its timeout, the setup creates the deprecation issue
    and then adds exactly one switch per entry, in the order of the
    entries, each with the entity id of its object id, Off, and without a
    lock. *)
Theorem yaml_setup_adds_every_switch (name_template : string -> NameTemplate)
    (slugify : string -> string)
    (DOMAIN SWITCH_DOMAIN : string) (config : PlatformConfig)
    (discovery_info : option Conf.t) (entities : list (string * Conf.t)) :
  discovered discovery_info = false ->
  CONF_SWITCHES config = Some entities ->
  entities <> [] ->
  Forall (fun e => Conf.complete (snd e) = true) entities ->
  exists switches,
    effects (async_setup_platform name_template slugify DOMAIN SWITCH_DOMAIN config
               discovery_info) =
      [CreateIssue DOMAIN "deprecated_yaml_switch" "2023.8.0" false WARNING
         "deprecated_platform_yaml" [("platform", SWITCH_DOMAIN)];
       AddEntities switches] /\
    outcome (async_setup_platform name_template slugify DOMAIN SWITCH_DOMAIN config
               discovery_info) =
      Returned /\
    map inl switches =
      map (fun e => make_switch name_template (fst e) (backward_compatibility (snd e))) entities /\
    map entity_id switches = map (fun e => ENTITY_ID_FORMAT (fst e)) entities /\
    Forall (fun s => is_on s = Some false /\ _process_updates s = None) switches.
Proof.
  intros Hd Hc Hne Hall. rewrite (setup_without_discovery name_template _ _ _ _ _ Hd).
  unfold yaml_switches. rewrite Hc.
  destruct (add_switches_complete name_template
              [CreateIssue DOMAIN "deprecated_yaml_switch" "2023.8.0" false WARNING
                 "deprecated_platform_yaml" [("platform", SWITCH_DOMAIN)]]
              entities Hne Hall) as (switches & E & Hm).
  exists switches. rewrite E. cbn [effects outcome app].
  split; [reflexivity|]. split; [reflexivity|]. split; [exact Hm|].
  apply (built_switches_fresh name_template). exact Hm.
Qed.

(** X12: without discovery, the setup adds all of its switches or none.  With
    no entry it logs "No switches added" and adds nothing; when one entry
    lacks a key that is read by subscript, the call ends in that [KeyError]
    after the issue alone, even if the entries before were complete;
    switches are added exactly when there are entries and all are
    complete. *)
Theorem yaml_setup_all_or_nothing (name_template : string -> NameTemplate)
    (slugify : string -> string)
    (DOMAIN SWITCH_DOMAIN : string) (config : PlatformConfig)
    (discovery_info : option Conf.t) :
  discovered discovery_info = false ->
  let entities := match CONF_SWITCHES config with Some e => e | None => [] end in
  let r := async_setup_platform name_template slugify DOMAIN SWITCH_DOMAIN config discovery_info in
  let issue := CreateIssue DOMAIN "deprecated_yaml_switch" "2023.8.0" false WARNING
                 "deprecated_platform_yaml" [("platform", SWITCH_DOMAIN)] in
  (entities = [] ->
   effects r = [issue; PlatformLog ERROR "No switches added"] /\ outcome r = Returned) /\
  (Exists (fun e => Conf.complete (snd e) = false) entities ->
   effects r = [issue] /\ exists k, outcome r = KeyError k) /\
  ((exists switches, In (AddEntities switches) (effects r)) <->
   entities <> [] /\ Forall (fun e => Conf.complete (snd e) = true) entities).
Proof.
  intros Hd entities r issue. unfold r.
  rewrite (setup_without_discovery name_template _ _ _ _ _ Hd). unfold yaml_switches.
  fold entities. fold issue.
  assert (Hempty : entities = [] ->
                   effects (add_switches name_template [issue] entities) =
                     [issue; PlatformLog ERROR "No switches added"] /\
                   outcome (add_switches name_template [issue] entities) = Returned).
  { intros ->. split; reflexivity. }
  split; [exact Hempty|]. split; [apply (add_switches_incomplete name_template)|].
  split.
  - intros [switches Hin]. destruct entities as [|e rest] eqn:He.
    + destruct (Hempty eq_refl) as [E _]. rewrite E in Hin.
      destruct Hin as [H|[H|[]]]; discriminate H.
    + split; [discriminate|]. rewrite <- He in *.
      destruct (complete_or_not entities) as [Hall|Hex]; [exact Hall|].
      destruct (add_switches_incomplete name_template [issue] entities Hex) as [E _].
      rewrite E in Hin. destruct Hin as [H|[]]. discriminate H.
  - intros [Hne Hall].
    destruct (add_switches_complete name_template [issue] entities Hne Hall) as (switches & E & _).
    exists switches. rewrite E. cbn [effects app]. right. left. reflexivity.
Qed.

Lemma yaml_setup_adds_every_switch_witness :
  exists switches,
    effects (async_setup_platform static_name (fun s => s) "command_line" "switch"
               {| CONF_SWITCHES := Some [("kitchen", demo_device); ("hall", demo_device)] |}
               None) =
      [CreateIssue "command_line" "deprecated_yaml_switch" "2023.8.0" false WARNING
         "deprecated_platform_yaml" [("platform", "switch")];
       AddEntities switches] /\
    map entity_id switches = ["switch.kitchen"; "switch.hall"].
Proof.
  destruct (yaml_setup_adds_every_switch static_name (fun s => s) "command_line" "switch"
              {| CONF_SWITCHES := Some [("kitchen", demo_device); ("hall", demo_device)] |}
              None [("kitchen", demo_device); ("hall", demo_device)]
              eq_refl eq_refl ltac:(discriminate)
              ltac:(repeat constructor))
    as (switches & H1 & _ & _ & H2 & _).
  exists switches. split; [exact H1 | exact H2].
Defined.

Lemma yaml_setup_all_or_nothing_witness :
  effects (async_setup_platform static_name (fun s => s) "command_line" "switch"
             {| CONF_SWITCHES := Some [("kitchen", demo_device); ("hall", Conf.empty)] |}
             None) =
    [CreateIssue "command_line" "deprecated_yaml_switch" "2023.8.0" false WARNING
       "deprecated_platform_yaml" [("platform", "switch")]].
Proof.
  apply (proj1 (proj2 (yaml_setup_all_or_nothing static_name (fun s => s) "command_line" "switch"
             {| CONF_SWITCHES := Some [("kitchen", demo_device); ("hall", Conf.empty)] |}
             None eq_refl))).
  apply Exists_cons_tl. constructor. reflexivity.
Defined.

(** X13: with a discovery that is not empty, the platform configuration is
    not read and no deprecation issue is created.  Without a name the call
    ends in a [KeyError]; with a name and a complete configuration exactly
    one switch is added, whose object id is the slug of the name. *)
Theorem discovery_setup (name_template : string -> NameTemplate)
    (slugify : string -> string) (DOMAIN SWITCH_DOMAIN : string)
    (config : PlatformConfig) (info : Conf.t) :
  Conf.truthy info = true ->
  let r := async_setup_platform name_template slugify DOMAIN SWITCH_DOMAIN config (Some info) in
  (forall config',
     async_setup_platform name_template slugify DOMAIN SWITCH_DOMAIN config' (Some info) = r) /\
  match Conf.CONF_NAME info with
  | None => effects r = [] /\ outcome r = KeyError Conf.NAME
  | Some name =>
      if Conf.complete info then
        exists s,
          make_switch name_template (slugify name) (backward_compatibility info) = inl s /\
          effects r = [AddEntities [s]] /\ outcome r = Returned /\
          entities_after r = [(slugify name, backward_compatibility info)] /\
          entity_id s = ENTITY_ID_FORMAT (slugify name)
      else
        effects r = [] /\ exists k, outcome r = KeyError k
  end.
Proof.
  intros Ht r. unfold r, async_setup_platform. rewrite Ht.
  split; [reflexivity|].
  destruct (Conf.CONF_NAME info) as [name|]; [|split; reflexivity].
  destruct (Conf.complete info) eqn:Hc.
  - destruct (add_switches_complete name_template [] [(slugify name, info)]) as (switches & E & Hm).
    { discriminate. }
    { constructor; [exact Hc | constructor]. }
    destruct switches as [|s [|s' r']]; try discriminate Hm.
    cbn [map fst snd] in Hm. injection Hm as Hm.
    exists s. rewrite E. cbn [effects outcome entities_after app map fst snd].
    split; [symmetry; exact Hm|]. repeat split.
    apply (make_switch_fresh name_template _ _ _ (eq_sym Hm)).
  - apply (add_switches_incomplete name_template). constructor. exact Hc.
Qed.

Lemma discovery_setup_witness :
  exists s,
    effects (async_setup_platform static_name (fun s => s) "command_line" "switch"
               {| CONF_SWITCHES := None |} (Some (Conf.set_name "porch" demo_device)))
      = [AddEntities [s]] /\
    entity_id s = "switch.porch".
Proof.
  destruct (proj2 (discovery_setup static_name (fun s => s) "command_line" "switch"
                     {| CONF_SWITCHES := None |} (Conf.set_name "porch" demo_device)
                     eq_refl))
    as (s & _ & H1 & _ & _ & H2).
  exists s. split; [exact H1 | exact H2].
Defined.

(** X14: the name template of the switch built from a device configuration
    is the [Template] made of the friendly name if that is not empty, else
    of the name, else of the object id, and the name the switch reports at
    first is the one that this template gives before any rendering; its
    scan interval is the configured one or 30 seconds; its commands,
    timeout and state command are those of the configuration; and it is
    scheduled for polling exactly when its state command is not empty. *)
Theorem switch_built_from_configuration (name_template : string -> NameTemplate)
    (object_id : string) (d : Conf.t) (s : CommandSwitch) :
  make_switch name_template object_id (backward_compatibility d) = inl s ->
  let given := match Conf.CONF_NAME d with Some n => n | None => object_id end in
  let text := match Conf.CONF_FRIENDLY_NAME d with
              | Some friendly => if Py.truthy friendly then friendly else given
              | None => given
              end in
  CONF_NAME (_config s) = name_template text /\
  name s = initial_name (name_template text) /\
  _scan_interval s = match Conf.CONF_SCAN_INTERVAL d with
                     | Some i => i
                     | None => 30
                     end /\
  Conf.CONF_COMMAND_ON d = Some (_command_on s) /\
  Conf.CONF_COMMAND_OFF d = Some (_command_off s) /\
  Conf.CONF_COMMAND_TIMEOUT d = Some (_timeout s) /\
  _command_state s = Conf.CONF_COMMAND_STATE d /\
  assumed_state s = negb (Conf.present (Conf.CONF_COMMAND_STATE d)) /\
  async_added_to_hass s =
    (if Py.truthy_opt (Conf.CONF_COMMAND_STATE d) then Some (_scan_interval s) else None).
Proof.
  unfold make_switch, backward_compatibility.
  destruct d as [off on st fr ic ict nm si uid vt to].
  cbn [Conf.CONF_FRIENDLY_NAME Conf.CONF_ICON_TEMPLATE Conf.CONF_NAME
       Conf.CONF_SCAN_INTERVAL Conf.CONF_COMMAND_ON Conf.CONF_COMMAND_OFF
       Conf.CONF_COMMAND_TIMEOUT Conf.CONF_COMMAND_STATE].
  destruct fr as [f|]; [destruct (Py.truthy f)|]; destruct ict as [i|];
    cbn [Conf.set_name Conf.set_icon Conf.CONF_FRIENDLY_NAME Conf.CONF_ICON_TEMPLATE
         Conf.CONF_NAME Conf.CONF_SCAN_INTERVAL Conf.CONF_COMMAND_ON
         Conf.CONF_COMMAND_OFF Conf.CONF_COMMAND_TIMEOUT Conf.CONF_COMMAND_STATE
         Conf.CONF_UNIQUE_ID Conf.CONF_ICON Conf.CONF_VALUE_TEMPLATE];
    destruct on; try discriminate; destruct off; try discriminate;
    destruct to; try discriminate;
    intros H; injection H as <-; cbv zeta;
    unfold assumed_state, async_added_to_hass, SCAN_INTERVAL;
    cbn [__init__ _config CONF_NAME name _scan_interval _command_on _command_off
         _timeout _command_state];
    destruct st, si; repeat split.
Qed.

Lemma switch_built_from_configuration_witness :
  exists s,
    make_switch (fun text => if (text =? "Kitchen light")%string
                             then light_name else static_name text)
      "kitchen" (backward_compatibility demo_device) = inl s /\
    CONF_NAME (_config s) = light_name /\
    name s = None /\
    _scan_interval s = 30.
Proof.
  eexists. split; [reflexivity|].
  destruct (switch_built_from_configuration
              (fun text => if (text =? "Kitchen light")%string
                           then light_name else static_name text)
              "kitchen" demo_device _ eq_refl) as (H1 & H2 & H3 & _).
  split; [exact H1|]. split; [exact H2 | exact H3].
Defined.

Lemma backward_compatibility_again (d : Conf.t) :
  backward_compatibility (backward_compatibility d) = backward_compatibility d.
Proof.
  unfold backward_compatibility. destruct d as [off on st fr ic ict nm si uid vt to].
  cbn [Conf.CONF_FRIENDLY_NAME Conf.CONF_ICON_TEMPLATE].
  destruct fr as [f|]; [destruct (Py.truthy f) eqn:Hf|]; destruct ict as [i|];
    cbn [Conf.set_name Conf.set_icon Conf.CONF_FRIENDLY_NAME Conf.CONF_ICON_TEMPLATE
         Conf.CONF_NAME Conf.CONF_SCAN_INTERVAL Conf.CONF_COMMAND_ON
         Conf.CONF_COMMAND_OFF Conf.CONF_COMMAND_TIMEOUT Conf.CONF_COMMAND_STATE
         Conf.CONF_UNIQUE_ID Conf.CONF_ICON Conf.CONF_VALUE_TEMPLATE];
    try rewrite Hf; reflexivity.
Qed.

Lemma make_switches_again (name_template : string -> NameTemplate)
    (entities : list (string * Conf.t)) (acc : list CommandSwitch) :
  make_switches name_template (fst (make_switches name_template entities acc)) acc =
  make_switches name_template entities acc.
Proof.
  revert acc. induction entities as [|[oid d] r IH]; intros acc; [reflexivity|].
  cbn [make_switches].
  destruct (make_switch name_template oid (backward_compatibility d)) as [s|k] eqn:Hs.
  - specialize (IH (acc ++ [s])%list).
    destruct (make_switches name_template r (acc ++ [s])) as [r' res] eqn:Hr.
    cbn [fst make_switches] in *. rewrite backward_compatibility_again, Hs, IH.
    reflexivity.
  - cbn [fst make_switches]. rewrite backward_compatibility_again, Hs. reflexivity.
Qed.

(** X15: without discovery, the setup writes into the device configurations
    (name and icon only), and a second setup on the configurations that the
    first one left behind has the same effects, the same outcome, and
    leaves them as they are. *)
Theorem yaml_setup_repeatable (name_template : string -> NameTemplate) (slugify : string -> string)
    (DOMAIN SWITCH_DOMAIN : string) (config : PlatformConfig)
    (discovery_info : option Conf.t) :
  discovered discovery_info = false ->
  let r := async_setup_platform name_template slugify DOMAIN SWITCH_DOMAIN config discovery_info in
  let r' := async_setup_platform name_template slugify DOMAIN SWITCH_DOMAIN
              {| CONF_SWITCHES := Some (entities_after r) |} discovery_info in
  r' = r /\
  (outcome r = Returned ->
   entities_after r =
     map (fun e => (fst e, backward_compatibility (snd e)))
       (match CONF_SWITCHES config with Some e => e | None => [] end)) /\
  forall d,
    let d' := backward_compatibility d in
    Conf.CONF_COMMAND_ON d' = Conf.CONF_COMMAND_ON d /\
    Conf.CONF_COMMAND_OFF d' = Conf.CONF_COMMAND_OFF d /\
    Conf.CONF_COMMAND_STATE d' = Conf.CONF_COMMAND_STATE d /\
    Conf.CONF_COMMAND_TIMEOUT d' = Conf.CONF_COMMAND_TIMEOUT d /\
    Conf.CONF_VALUE_TEMPLATE d' = Conf.CONF_VALUE_TEMPLATE d /\
    Conf.CONF_SCAN_INTERVAL d' = Conf.CONF_SCAN_INTERVAL d /\
    Conf.CONF_UNIQUE_ID d' = Conf.CONF_UNIQUE_ID d /\
    Conf.CONF_FRIENDLY_NAME d' = Conf.CONF_FRIENDLY_NAME d /\
    Conf.CONF_ICON_TEMPLATE d' = Conf.CONF_ICON_TEMPLATE d.
Proof.
  intros Hd r r'. unfold r', r. clear r r'.
  rewrite !(setup_without_discovery name_template _ _ _ _ _ Hd). unfold yaml_switches.
  cbn [CONF_SWITCHES].
  set (entities := match CONF_SWITCHES config with Some e => e | None => [] end).
  set (issue := CreateIssue DOMAIN "deprecated_yaml_switch" "2023.8.0" false WARNING
                  "deprecated_platform_yaml" [("platform", SWITCH_DOMAIN)]).
  assert (Hfst : entities_after (add_switches name_template [issue] entities) =
                 fst (make_switches name_template entities [])).
  { unfold add_switches. destruct (make_switches name_template entities []) as [ents [[|s ss]|k]];
      reflexivity. }
  split; [|split].
  - rewrite Hfst. unfold add_switches at 1. rewrite (make_switches_again name_template).
    reflexivity.
  - intros Ho. destruct (complete_or_not entities) as [Hall|Hex].
    + rewrite Hfst. destruct (make_switches_complete name_template entities [] Hall) as (b & E & _).
      rewrite E. reflexivity.
    + destruct (add_switches_incomplete name_template [issue] entities Hex) as [_ [k Hk]].
      rewrite Hk in Ho. discriminate Ho.
  - intros d. unfold backward_compatibility.
    destruct d as [off on st fr ic ict nm si uid vt to].
    cbn [Conf.CONF_FRIENDLY_NAME Conf.CONF_ICON_TEMPLATE].
    destruct fr as [f|]; [destruct (Py.truthy f)|]; destruct ict as [i|];
      repeat split.
Qed.

Lemma yaml_setup_repeatable_witness :
  entities_after
    (async_setup_platform static_name (fun s => s) "command_line" "switch"
       {| CONF_SWITCHES := Some [("kitchen", demo_device)] |} None) =
  [("kitchen", Conf.set_name "Kitchen light" demo_device)].
Proof.
  exact (eq_trans
           (proj1 (proj2 (yaml_setup_repeatable static_name (fun s => s) "command_line" "switch"
                            {| CONF_SWITCHES := Some [("kitchen", demo_device)] |} None
                            eq_refl)) eq_refl)
           eq_refl).
Defined.

(** The switches that the loop has built are as [__init__] leaves them. *)
Lemma make_switches_fresh (name_template : string -> NameTemplate)
    (entities : list (string * Conf.t)) (acc : list CommandSwitch)
    (ents : list (string * Conf.t)) (switches : list CommandSwitch) :
  make_switches name_template entities acc = (ents, inl switches) ->
  Forall (fun s => is_on s = Some false /\ _process_updates s = None) acc ->
  Forall (fun s => is_on s = Some false /\ _process_updates s = None) switches.
Proof.
  revert acc ents. induction entities as [|[oid d] r IH]; intros acc ents H Hacc.
  - injection H as _ <-. exact Hacc.
  - cbn [make_switches] in H.
    destruct (make_switch name_template oid (backward_compatibility d)) as [s|k] eqn:Hs;
      [|discriminate H].
    destruct (make_switches name_template r (acc ++ [s])) as [r' res] eqn:Hr.
    injection H as _ ->. apply (IH _ _ Hr).
    apply Forall_app. split; [exact Hacc|]. constructor; [|constructor].
    destruct (make_switch_fresh name_template _ _ _ Hs) as (Ha & Hb & _). split; assumption.
Qed.

Lemma add_switches_fresh (name_template : string -> NameTemplate)
    (before : list PlatformEffect) (entities : list (string * Conf.t))
    (switches : list CommandSwitch) :
  (forall sws, ~ In (AddEntities sws) before) ->
  In (AddEntities switches) (effects (add_switches name_template before entities)) ->
  Forall (fun s => is_on s = Some false /\ _process_updates s = None) switches.
Proof.
  intros Hb. unfold add_switches.
  destruct (make_switches name_template entities []) as [ents [[|s ss]|k]] eqn:E; cbn [effects];
    intros Hin.
  - apply in_app_or in Hin. destruct Hin as [H|[H|[]]];
      [destruct (Hb _ H) | discriminate H].
  - apply in_app_or in Hin. destruct Hin as [H|[H|[]]]; [destruct (Hb _ H)|].
    injection H as <-. apply (make_switches_fresh name_template _ _ _ _ E). constructor.
  - destruct (Hb _ Hin).
Qed.

(** X16: every switch that the setup adds starts Off and with its lock free,
    so that, whatever the world and the events, at most one of its updates
    is in flight and its warnings are exactly its overrun polls. *)
Theorem added_switches_poll_one_at_a_time (name_template : string -> NameTemplate)
    (slugify : string -> string)
    (DOMAIN SWITCH_DOMAIN : string) (config : PlatformConfig)
    (discovery_info : option Conf.t) (switches : list CommandSwitch) (s : CommandSwitch)
    (w : World) (es : list Event) :
  In (AddEntities switches)
    (effects (async_setup_platform name_template slugify DOMAIN SWITCH_DOMAIN config
                discovery_info)) ->
  In s switches ->
  let l := run_events es (idle {| self := s; trace := []; world := w |}) in
  is_on s = Some false /\
  (updates_in_flight l <= 1)%nat /\
  warnings (sys l) = overruns es (idle {| self := s; trace := []; world := w |}).
Proof.
  intros Hin Hs l.
  assert (Hf : Forall (fun s => is_on s = Some false /\ _process_updates s = None) switches).
  { unfold async_setup_platform, yaml_switches in Hin.
    destruct discovery_info as [info|]; [destruct (Conf.truthy info)|].
    - destruct (Conf.CONF_NAME info); [|destruct Hin].
      refine (add_switches_fresh name_template [] _ _ _ Hin). intros sws [].
    - refine (add_switches_fresh name_template _ _ _ _ Hin). intros sws [H|[]]. discriminate H.
    - refine (add_switches_fresh name_template _ _ _ _ Hin). intros sws [H|[]]. discriminate H. }
  destruct (proj1 (Forall_forall _ _) Hf s Hs) as [Hoff Hlock].
  assert (H0 : locked (self {| self := s; trace := []; world := w |}) = false).
  { unfold locked. cbn [self]. rewrite Hlock. reflexivity. }
  destruct (run_events_ok es _ (idle_ok _ H0)) as [(_ & Hn & _) Hw]. fold l in Hn, Hw.
  split; [exact Hoff|]. split.
  - rewrite Hn. destruct (locked (self (sys l))); lia.
  - rewrite Hw. reflexivity.
Qed.

Lemma added_switches_poll_one_at_a_time_witness :
  let s := __init__ {| CONF_UNIQUE_ID := None; CONF_NAME := static_name "Kitchen light";
                       CONF_ICON := None |}
             "kitchen" "echo 1 > /tmp/s" "echo 0 > /tmp/s" (Some "cat /tmp/s") None 15 30 in
  (updates_in_flight
     (run_events [Tick 0; Tick 30]
        (idle {| self := s; trace := []; world := demo_world 0 None |})) <= 1)%nat.
Proof.
  intros s.
  exact (proj1 (proj2 (added_switches_poll_one_at_a_time static_name (fun x => x)
           "command_line" "switch"
           {| CONF_SWITCHES := Some [("kitchen", demo_device)] |} None
           [s] s (demo_world 0 None) [Tick 0; Tick 30]
           (or_intror (or_introl eq_refl)) (or_introl eq_refl)))).
Defined.
